(** * Sentiment scoring and weighted composite aggregation

    A shallow embedding of the scoring core of the Sentiment repository:

    - [src/analysis/sentiment_analyzer.py]  (class [SentimentAnalyzer]):
      [clean_text], [analyze_with_textblob], [analyze_with_vader], [analyze],
      [analyze_batch], [get_overall_sentiment], [classify_sentiment];
    - [src/data_sources/market_indicators.py] (class [MarketIndicators]):
      [get_overall_market_sentiment];
    - [src/data_sources/fmp_collector.py] (class [FMPCollector]):
      [analyze_institutional_sentiment], [analyze_insider_sentiment].

    Conventions of the embedding.

    - A Python [float] is an exact rational ([Q]); equalities between computed
      scores are stated with [==].  Rounding is not modelled.
    - A Python [int] is a [Z].
    - A Python [str] is a [string] of ASCII characters; the classes [\s] and
      [\w] of the regular expressions and the white space of [str.split]
      and [str.strip] are those of the ASCII range.
    - A [dict] built by a literal of the source with fixed keys is a record;
      a [dict] handed over by a library is an association list with a
      fallible lookup.
    - A raised exception is the [Raise] outcome; calls to the logger and to
      the two lexical models are recorded, in order, in a trace of [event]s
      returned next to the outcome ([Run.t]); [try]/[except] is
      [Run.try_except].  The text of a caught exception, which the source
      appends to its error messages, is left out of the logged message.
    - Network collectors are not modelled: a function that starts by calling
      one takes the collector's result as an argument. *)

From Stdlib Require Import Bool List String Ascii ZArith NArith QArith Qabs Lia Lqa.
Import ListNotations.

Local Open Scope Q_scope.

(** ** Python values *)

Module Py.

(** Exceptions the modelled code can raise. *)
Inductive exn : Type :=
| ZeroDivisionError
| KeyError (key : string)
| LibraryError.

Inductive outcome (A : Type) : Type :=
| Ok (a : A)
| Raise (e : exn).
Arguments Ok {A} a.
Arguments Raise {A} e.

Definition bind {A B : Type} (m : outcome A) (k : A -> outcome B) : outcome B :=
  match m with
  | Ok a => k a
  | Raise e => Raise e
  end.

(** [x > y], [x < y] and [x >= y] on floats. *)
Definition gt (x y : Q) : bool := negb (Qle_bool x y).
Definition lt (x y : Q) : bool := negb (Qle_bool y x).
Definition ge (x y : Q) : bool := Qle_bool y x.

(** True division [x / y]: raises on a zero divisor. *)
Definition div (x y : Q) : outcome Q :=
  if Qeq_bool y 0 then Raise ZeroDivisionError else Ok (x / y).

(** An [int] operand of a float operation. *)
Definition of_int (n : Z) : Q := inject_Z n.

(** [sum(1 for x in xs if p(x))]. *)
Fixpoint count_if {A : Type} (p : A -> bool) (xs : list A) : Z :=
  match xs with
  | [] => 0%Z
  | x :: rest => ((if p x then 1 else 0) + count_if p rest)%Z
  end.

(** [sum(xs)] on floats: a left fold that starts from [0]. *)
Definition sum (xs : list Q) : Q := fold_left Qplus xs 0.

(** [len(xs)]. *)
Definition len {A : Type} (xs : list A) : Z := Z.of_nat (List.length xs).

(** A [dict] from [str] to [float] that comes from a library. *)
Definition dict : Type := list (string * Q).

(** [d[key]]. *)
Fixpoint getitem (d : dict) (key : string) : outcome Q :=
  match d with
  | [] => Raise (KeyError key)
  | (k, v) :: rest => if String.eqb k key then Ok v else getitem rest key
  end.

(** [key in d]. *)
Definition has_key (d : dict) (key : string) : bool :=
  match getitem d key with
  | Ok _ => true
  | Raise _ => false
  end.

(** [c in s] for a one-character [c]. *)
Fixpoint contains (c : ascii) (s : string) : bool :=
  match s with
  | EmptyString => false
  | String c' rest => Ascii.eqb c' c || contains c rest
  end.

(** [d.get(key, default)] on an optional field. *)
Definition get {A : Type} (field : option A) (default : A) : A :=
  match field with
  | Some v => v
  | None => default
  end.

End Py.

(** ** Logging and library calls *)

Inductive event : Type :=
| LogInfo (msg : string)
| LogWarning (msg : string)
| LogError (msg : string)
| CallTextBlob (text : string)
| CallVader (text : string).

(** The events that invoke a lexical model. *)
Definition is_model_call (e : event) : bool :=
  match e with
  | CallTextBlob _ | CallVader _ => true
  | LogInfo _ | LogWarning _ | LogError _ => false
  end.

Module Run.

Definition t (A : Type) : Type := (list event * Py.outcome A)%type.

Definition ret {A : Type} (a : A) : t A := ([], Py.Ok a).

Definition bind {A B : Type} (m : t A) (k : A -> t B) : t B :=
  match m with
  | (tr, Py.Ok a) => let (tr', r) := k a in (tr ++ tr', r)
  | (tr, Py.Raise e) => (tr, Py.Raise e)
  end.

Definition emit (e : event) : t unit := ([e], Py.Ok tt).

Definition lift {A : Type} (m : Py.outcome A) : t A := ([], m).

(** [try: m except Exception as e: h e]. *)
Definition try_except {A : Type} (m : t A) (h : Py.exn -> t A) : t A :=
  match m with
  | (tr, Py.Ok a) => (tr, Py.Ok a)
  | (tr, Py.Raise e) => let (tr', r) := h e in (tr ++ tr', r)
  end.

(** A list comprehension [[f x for x in xs]]. *)
Fixpoint for_each {A B : Type} (f : A -> t B) (xs : list A) : t (list B) :=
  match xs with
  | [] => ret []
  | x :: rest =>
      bind (f x) (fun y => bind (for_each f rest) (fun ys => ret (y :: ys)))
  end.

Definition trace {A : Type} (m : t A) : list event := fst m.
Definition value {A : Type} (m : t A) : Py.outcome A := snd m.

End Run.

Declare Scope run_scope.
Delimit Scope run_scope with run.
Notation "x <- m ;; k" := (Run.bind m (fun x => k))
  (at level 61, m at next level, right associativity) : run_scope.
Notation "m ;; k" := (Run.bind m (fun _ => k))
  (at level 61, right associativity) : run_scope.

Declare Scope py_scope.
Delimit Scope py_scope with py.
Notation "x <- m ;; k" := (Py.bind m (fun x => k))
  (at level 61, m at next level, right associativity) : py_scope.

(** ** Text normalisation, [SentimentAnalyzer.clean_text] *)

Module Text.

Definition code (c : ascii) : N := N_of_ascii c.

(** [\s] and [str.isspace]: TAB..CR, FS..US and the space. *)
Definition is_space (c : ascii) : bool :=
  ((9 <=? code c) && (code c <=? 13) || (28 <=? code c) && (code c <=? 32))%N.

(** [\w]: letters, digits and the underscore. *)
Definition is_word (c : ascii) : bool :=
  ((48 <=? code c) && (code c <=? 57)
   || (65 <=? code c) && (code c <=? 90)
   || (97 <=? code c) && (code c <=? 122)
   || (code c =? 95))%N.

Fixpoint drop (n : nat) (s : string) : string :=
  match n, s with
  | O, _ => s
  | S n', String _ rest => drop n' rest
  | S _, EmptyString => EmptyString
  end.

(** [\S+] matches at the head of [s]. *)
Definition nonspace_ahead (s : string) : bool :=
  match s with
  | String c _ => negb (is_space c)
  | EmptyString => false
  end.

(** [\w+] matches at the head of [s]. *)
Definition word_ahead (s : string) : bool :=
  match s with
  | String c _ => is_word c
  | EmptyString => false
  end.

(** The literal [p] matches at the head of [s]. *)
Fixpoint literal_ahead (p s : string) : bool :=
  match p, s with
  | EmptyString, _ => true
  | String _ _, EmptyString => false
  | String a p', String b s' => Ascii.eqb a b && literal_ahead p' s'
  end.

(** [http\S+|www\S+|https\S+] matches at the head of [s]. *)
Definition url_ahead (s : string) : bool :=
  literal_ahead "http" s && nonspace_ahead (drop 4 s)
  || literal_ahead "www" s && nonspace_ahead (drop 3 s)
  || literal_ahead "https" s && nonspace_ahead (drop 5 s).

(** [re.sub(r'http\S+|www\S+|https\S+', '', s)], scanning left to right;
    [inside] holds while the greedy [\S+] of a match is being consumed. *)
Fixpoint sub_urls (inside : bool) (s : string) : string :=
  match s with
  | EmptyString => EmptyString
  | String c rest =>
      if inside && negb (is_space c) then sub_urls true rest
      else if url_ahead s then sub_urls true rest
      else String c (sub_urls false rest)
  end.

(** [re.sub(r'@\w+', '', s)]; [inside] holds while [\w+] is being consumed. *)
Fixpoint sub_mentions (inside : bool) (s : string) : string :=
  match s with
  | EmptyString => EmptyString
  | String c rest =>
      if inside && is_word c then sub_mentions true rest
      else if Ascii.eqb c "@" && word_ahead rest then sub_mentions true rest
      else String c (sub_mentions false rest)
  end.

(** [re.sub(r'#', '', s)]. *)
Fixpoint sub_hash (s : string) : string :=
  match s with
  | EmptyString => EmptyString
  | String c rest =>
      if Ascii.eqb c "#" then sub_hash rest else String c (sub_hash rest)
  end.

(** [s.split()]: the maximal runs of non-space characters; [word] is the
    run read so far. *)
Fixpoint split_from (word : string) (s : string) : list string :=
  match s with
  | EmptyString =>
      match word with
      | EmptyString => []
      | _ => [word]
      end
  | String c rest =>
      if is_space c then
        match word with
        | EmptyString => split_from EmptyString rest
        | _ => word :: split_from EmptyString rest
        end
      else split_from (word ++ String c EmptyString) rest
  end.

Definition split (s : string) : list string := split_from EmptyString s.

(** [sep.join(words)]. *)
Definition join (sep : string) (words : list string) : string :=
  String.concat sep words.

Fixpoint lstrip (s : string) : string :=
  match s with
  | EmptyString => EmptyString
  | String c rest => if is_space c then lstrip rest else s
  end.

Fixpoint rstrip (s : string) : string :=
  match s with
  | EmptyString => EmptyString
  | String c rest =>
      match rstrip rest with
      | EmptyString => if is_space c then EmptyString else String c EmptyString
      | kept => String c kept
      end
  end.

(** [s.strip()]. *)
Definition strip (s : string) : string := lstrip (rstrip s).

(** A text made of white space only (the empty text included). *)
Fixpoint blank (s : string) : bool :=
  match s with
  | EmptyString => true
  | String c rest => is_space c && blank rest
  end.

(** Truthiness of a [str]. *)
Definition truthy (s : string) : bool :=
  match s with
  | EmptyString => false
  | String _ _ => true
  end.

End Text.

Definition clean_text (text : string) : string :=
  let text := Text.sub_urls false text in
  let text := Text.sub_mentions false text in
  let text := Text.sub_hash text in
  let text := Text.join " " (Text.split text) in
  Text.strip text.

(** ** The sentiment analyzer, [SentimentAnalyzer] *)

(** [{'polarity': ..., 'subjectivity': ...}]. *)
Record TextBlobDict : Type := {
  polarity : Q;
  subjectivity_tb : Q
}.

(** The three [vader_*] entries of the result of [analyze]. *)
Record VaderParts : Type := {
  vader_positive : Q;
  vader_negative : Q;
  vader_neutral : Q
}.

(** The result of [analyze]; the [vader_*] entries are only present on the
    scoring path. *)
Record SentimentDict : Type := {
  sentiment_score : Q;
  textblob_score : Q;
  vader_score : Q;
  confidence : Q;
  subjectivity : Q;
  vader_parts : option VaderParts
}.

Record Percentages : Type := {
  positive_percentage : Q;
  negative_percentage : Q;
  neutral_percentage : Q
}.

(** The result of [get_overall_sentiment]; the percentage entries are only
    present on the non-empty path. *)
Record OverallDict : Type := {
  average_sentiment : Q;
  positive_count : Z;
  negative_count : Z;
  neutral_count : Z;
  total_count : Z;
  percentages : option Percentages
}.

Definition classify_sentiment (score : Q) : string :=
  if Py.ge score 0.5 then "Very Positive"
  else if Py.ge score 0.05 then "Positive"
  else if Py.gt score (-0.05) then "Neutral"
  else if Py.gt score (-0.5) then "Negative"
  else "Very Negative".

Section Analyzer.

(** The two lexical models are libraries: [TextBlob(text).sentiment], which
    yields a polarity and a subjectivity, and
    [SentimentIntensityAnalyzer().polarity_scores(text)], which yields a
    [dict].  Either may raise. *)
Variable textblob_sentiment : string -> Py.outcome (Q * Q).
Variable vader_polarity_scores : string -> Py.outcome Py.dict.

Local Open Scope run_scope.

Definition analyze_with_textblob (text : string) : Run.t TextBlobDict :=
  Run.try_except
    (Run.emit (CallTextBlob text) ;;
     blob <- Run.lift (textblob_sentiment text) ;;
     Run.ret {| polarity := fst blob; subjectivity_tb := snd blob |})
    (fun _ =>
       Run.emit (LogError "TextBlob analysis error") ;;
       Run.ret {| polarity := 0.0; subjectivity_tb := 0.0 |}).

Definition vader_fallback : Py.dict :=
  [("compound"%string, 0.0); ("positive"%string, 0.0);
   ("negative"%string, 0.0); ("neutral"%string, 1.0)].

Definition analyze_with_vader (text : string) : Run.t Py.dict :=
  Run.try_except
    (Run.emit (CallVader text) ;;
     scores <- Run.lift (vader_polarity_scores text) ;;
     Run.ret scores)
    (fun _ =>
       Run.emit (LogError "VADER analysis error") ;;
       Run.ret vader_fallback).

Definition empty_result : SentimentDict :=
  {| sentiment_score := 0.0;
     textblob_score := 0.0;
     vader_score := 0.0;
     confidence := 0.0;
     subjectivity := 0.0;
     vader_parts := None |}.

Definition analyze (text : string) : Run.t SentimentDict :=
  let cleaned_text := clean_text text in
  if negb (Text.truthy cleaned_text) then
    Run.emit (LogWarning "Empty text after cleaning") ;;
    Run.ret empty_result
  else
    textblob_result <- analyze_with_textblob cleaned_text ;;
    vader_result <- analyze_with_vader cleaned_text ;;
    let vader_weight := 0.6 in
    let textblob_weight := 0.4 in
    compound <- Run.lift (Py.getitem vader_result "compound") ;;
    let combined_score :=
      compound * vader_weight + polarity textblob_result * textblob_weight in
    compound' <- Run.lift (Py.getitem vader_result "compound") ;;
    let agreement := 1 - Qabs (compound' - polarity textblob_result) / 2 in
    let confidence := agreement in
    vader_score <- Run.lift (Py.getitem vader_result "compound") ;;
    positive <- Run.lift (Py.getitem vader_result "positive") ;;
    negative <- Run.lift (Py.getitem vader_result "negative") ;;
    neutral <- Run.lift (Py.getitem vader_result "neutral") ;;
    Run.ret {| sentiment_score := combined_score;
               textblob_score := polarity textblob_result;
               vader_score := vader_score;
               confidence := confidence;
               subjectivity := subjectivity_tb textblob_result;
               vader_parts := Some {| vader_positive := positive;
                                      vader_negative := negative;
                                      vader_neutral := neutral |} |}.

Definition analyze_batch (texts : list string) : Run.t (list SentimentDict) :=
  Run.for_each analyze texts.

Definition get_overall_sentiment (texts : list string) : Run.t OverallDict :=
  match texts with
  | [] =>
      Run.ret {| average_sentiment := 0.0;
                 positive_count := 0;
                 negative_count := 0;
                 neutral_count := 0;
                 total_count := 0;
                 percentages := None |}
  | _ :: _ =>
      results <- analyze_batch texts ;;
      let total := Py.len results in
      average_sentiment <-
        Run.lift (Py.div (Py.sum (map sentiment_score results)) (Py.of_int total)) ;;
      let positive_threshold := 0.05 in
      let negative_threshold := -0.05 in
      let positive_count :=
        Py.count_if (fun r => Py.gt (sentiment_score r) positive_threshold) results in
      let negative_count :=
        Py.count_if (fun r => Py.lt (sentiment_score r) negative_threshold) results in
      let neutral_count := (total - positive_count - negative_count)%Z in
      positive_ratio <- Run.lift (Py.div (Py.of_int positive_count) (Py.of_int total)) ;;
      negative_ratio <- Run.lift (Py.div (Py.of_int negative_count) (Py.of_int total)) ;;
      neutral_ratio <- Run.lift (Py.div (Py.of_int neutral_count) (Py.of_int total)) ;;
      Run.ret {| average_sentiment := average_sentiment;
                 positive_count := positive_count;
                 negative_count := negative_count;
                 neutral_count := neutral_count;
                 total_count := total;
                 percentages :=
                   Some {| positive_percentage := positive_ratio * 100;
                           negative_percentage := negative_ratio * 100;
                           neutral_percentage := neutral_ratio * 100 |} |}
  end.

End Analyzer.

(** Sample lexical models: two that always raise, two that answer within
    their documented ranges, and two that answer outside them. *)
Definition failing_textblob (text : string) : Py.outcome (Q * Q) :=
  Py.Raise Py.LibraryError.

Definition failing_vader (text : string) : Py.outcome Py.dict :=
  Py.Raise Py.LibraryError.

Definition sample_textblob (text : string) : Py.outcome (Q * Q) :=
  Py.Ok (0.5, 0.3).

Definition sample_vader (text : string) : Py.outcome Py.dict :=
  Py.Ok [("negative"%string, 0.0); ("neutral"%string, 0.3);
         ("positive"%string, 0.7); ("compound"%string, 0.8)].

Definition wild_textblob (text : string) : Py.outcome (Q * Q) :=
  Py.Ok (-1, 2).

Definition wild_vader (text : string) : Py.outcome Py.dict :=
  Py.Ok [("negative"%string, 0.0); ("neutral"%string, 0.0);
         ("positive"%string, 9.0); ("compound"%string, 5.0)].

(** ** The macro composite, [MarketIndicators.get_overall_market_sentiment] *)

Module MarketIndicators.

(** What an indicator getter ([get_vix], [get_advance_decline_line],
    [get_put_call_ratio_estimate], [get_market_breadth_spy]) returns when it
    has data; the empty [dict] it returns otherwise is [None]. *)
Record Indicator : Type := {
  indicator_sentiment : string;
  score : Q
}.

Record CompositeDict : Type := {
  composite_score : Q;
  sentiment : string;
  vix_entry : option Indicator;
  advance_decline : option Indicator;
  put_call_ratio : option Indicator;
  market_breadth : option Indicator
}.

(** [if ind: scores.append(ind['score']); weights.append(w)]. *)
Definition append_if_present (ind : option Indicator) (w : Q)
    (acc : list Q * list Q) : list Q * list Q :=
  match ind with
  | Some d => (fst acc ++ [score d], snd acc ++ [w])
  | None => acc
  end.

(** [sum(s * w for s, w in zip(scores, weights))]. *)
Definition weighted_sum (scores weights : list Q) : Q :=
  Py.sum (map (fun sw => fst sw * snd sw) (combine scores weights)).

Definition classify_composite (composite_score : Q) : string :=
  if Py.gt composite_score 0.4 then "bullish"
  else if Py.gt composite_score 0.1 then "slightly_bullish"
  else if Py.gt composite_score (-0.1) then "neutral"
  else if Py.gt composite_score (-0.4) then "slightly_bearish"
  else "bearish".

Local Open Scope run_scope.

(** The four arguments are the results of the four getters the source calls
    first; the empty [dict] the function returns is [None]. *)
Definition get_overall_market_sentiment
    (vix ad_line pc_ratio breadth : option Indicator)
    : Run.t (option CompositeDict) :=
  Run.try_except
    (Run.emit (LogInfo "Calculating overall market sentiment") ;;
     let acc := ([], []) in
     let acc := append_if_present vix 0.3 acc in
     let acc := append_if_present ad_line 0.3 acc in
     let acc := append_if_present pc_ratio 0.2 acc in
     let acc := append_if_present breadth 0.2 acc in
     let scores := fst acc in
     let weights := snd acc in
     match scores with
     | [] =>
         Run.emit (LogWarning "No indicator data available") ;;
         Run.ret None
     | _ :: _ =>
         composite_score <-
           Run.lift (Py.div (weighted_sum scores weights) (Py.sum weights)) ;;
         Run.ret (Some {| composite_score := composite_score;
                          sentiment := classify_composite composite_score;
                          vix_entry := vix;
                          advance_decline := ad_line;
                          put_call_ratio := pc_ratio;
                          market_breadth := breadth |})
     end)
    (fun _ =>
       Run.emit (LogError "Error calculating overall sentiment") ;;
       Run.ret None).

(** Sample readings: a calm volatility index and a weak breadth. *)
Definition sample_vix : option Indicator :=
  Some {| indicator_sentiment := "complacent"; score := 0.5 |}.

Definition sample_ad_line : option Indicator :=
  Some {| indicator_sentiment := "bearish"; score := -0.6 |}.

End MarketIndicators.

(** ** Holder and insider scoring, [FMPCollector] *)

Module FMPCollector.

(** A holder record of the provider; the source reads [h.get('change', 0)]. *)
Record Holder : Type := {
  change : option Q
}.

(** A trade record of the provider; the source reads
    [trade['transactionDate']] and [t.get('transactionType', '')]. *)
Record Trade : Type := {
  transactionDate : option string;
  transactionType : option string
}.

Record Positions : Type := {
  increasing_positions : Z;
  decreasing_positions : Z
}.

(** The result of [analyze_institutional_sentiment], without its
    [description] text. *)
Record InstitutionalDict : Type := {
  sentiment : string;
  score : Q;
  holder_count : Z;
  positions : option Positions
}.

Record Tally : Type := {
  buys : Z;
  sells : Z
}.

(** The result of [analyze_insider_sentiment], without its [description]
    text. *)
Record InsiderDict : Type := {
  insider_sentiment : string;
  insider_score : Q;
  trade_count : Z;
  tally : option Tally
}.

Local Open Scope py_scope.

(** The argument is the result of [get_institutional_holders(ticker)]. *)
Definition analyze_institutional_sentiment (holders : list Holder)
    : Py.outcome InstitutionalDict :=
  match holders with
  | [] =>
      Py.Ok {| sentiment := "unknown";
               score := 0.0;
               holder_count := 0;
               positions := None |}
  | _ :: _ =>
      let increasing :=
        Py.count_if (fun h => Py.gt (Py.get (change h) 0) 0) holders in
      let decreasing :=
        Py.count_if (fun h => Py.lt (Py.get (change h) 0) 0) holders in
      let total := Py.len holders in
      score <-
        (if (total >? 0)%Z
         then Py.div (Py.of_int (increasing - decreasing)) (Py.of_int total)
         else Py.Ok 0.0) ;;
      let sentiment :=
        if Py.gt score 0.3 then "bullish"%string
        else if Py.lt score (-0.3) then "bearish"%string
        else "neutral"%string in
      Py.Ok {| sentiment := sentiment;
               score := score;
               holder_count := total;
               positions := Some {| increasing_positions := increasing;
                                    decreasing_positions := decreasing |} |}
  end.

(** Buys and sells among the recent trades. *)
Definition count_buys (recent_trades : list Trade) : Z :=
  Py.count_if
    (fun t => Py.contains "P" (Py.get (transactionType t) EmptyString))
    recent_trades.

Definition count_sells (recent_trades : list Trade) : Z :=
  Py.count_if
    (fun t => Py.contains "S" (Py.get (transactionType t) EmptyString))
    recent_trades.

(** The part of [analyze_insider_sentiment] that follows the date filter. *)
Definition score_recent_trades (recent_trades : list Trade)
    : Py.outcome InsiderDict :=
  match recent_trades with
  | [] =>
      Py.Ok {| insider_sentiment := "neutral";
               insider_score := 0.0;
               trade_count := 0;
               tally := None |}
  | _ :: _ =>
      let buys := count_buys recent_trades in
      let sells := count_sells recent_trades in
      let total := (buys + sells)%Z in
      score <-
        (if (total >? 0)%Z
         then Py.div (Py.of_int (buys - sells)) (Py.of_int total)
         else Py.Ok 0.0) ;;
      let sentiment :=
        if Py.gt score 0.2 then "bullish"%string
        else if Py.lt score (-0.2) then "bearish"%string
        else "neutral"%string in
      Py.Ok {| insider_sentiment := sentiment;
               insider_score := score;
               trade_count := total;
               tally := Some {| buys := buys; sells := sells |} |}
  end.

(** The vocabulary of the holder score: the holders whose position grew,
    those whose position shrank, and all of them. *)
Definition increasing_holders_count (holders : list Holder) : Z :=
  Py.len (filter (fun h => Py.gt (Py.get (change h) 0) 0) holders).

Definition decreasing_holders_count (holders : list Holder) : Z :=
  Py.len (filter (fun h => Py.lt (Py.get (change h) 0) 0) holders).

Definition total_holders (holders : list Holder) : Z := Py.len holders.

(** A trade that is neither a purchase nor a sale. *)
Definition neither_buy_nor_sell (t : Trade) : Prop :=
  Py.contains "P" (Py.get (transactionType t) EmptyString) = false
  /\ Py.contains "S" (Py.get (transactionType t) EmptyString) = false.

Section Insider.

(** [datetime.now()] and [datetime.strptime(_, '%Y-%m-%d')], as a number of
    microseconds; [strptime] raises on a malformed date. *)
Variable now : Z.
Variable strptime : string -> Py.outcome Z.

Definition microseconds_per_day : Z := 86400000000.

(** The body of the filtering loop: a missing key or a malformed date is
    swallowed by the bare [except] and the trade is skipped. *)
Definition is_recent (cutoff_date : Z) (trade : Trade) : bool :=
  match transactionDate trade with
  | None => false
  | Some text =>
      match strptime text with
      | Py.Ok trade_date => (trade_date >=? cutoff_date)%Z
      | Py.Raise _ => false
      end
  end.

(** The trades kept by the filtering loop, [recent_trades] in the source. *)
Definition recent_trades (trades : list Trade) (days : Z) : list Trade :=
  let cutoff_date := (now - days * microseconds_per_day)%Z in
  filter (is_recent cutoff_date) trades.

(** The first argument is the result of [get_insider_trades(ticker)]. *)
Definition analyze_insider_sentiment (trades : list Trade) (days : Z)
    : Py.outcome InsiderDict :=
  match trades with
  | [] =>
      Py.Ok {| insider_sentiment := "unknown";
               insider_score := 0.0;
               trade_count := 0;
               tally := None |}
  | _ :: _ => score_recent_trades (recent_trades trades days)
  end.

End Insider.

(** Sample records. *)
Definition sample_holders : list Holder :=
  [{| change := Some 1500 |}; {| change := None |};
   {| change := Some (-200) |}; {| change := Some 30 |}].

Definition sample_strptime (text : string) : Py.outcome Z :=
  if String.eqb text "2024-03-01" then Py.Ok 1709251200000000%Z
  else Py.Raise Py.LibraryError.

Definition sample_now : Z := 1711929600000000.

Definition sample_awards : list Trade :=
  [{| transactionDate := Some "2024-03-01"%string;
      transactionType := Some "A-Award"%string |};
   {| transactionDate := Some "2024-03-01"%string;
      transactionType := None |};
   {| transactionDate := Some "yesterday"%string;
      transactionType := Some "P-Purchase"%string |}].

Definition sample_trades : list Trade :=
  [{| transactionDate := Some "2024-03-01"%string;
      transactionType := Some "P-Purchase"%string |};
   {| transactionDate := Some "2024-03-01"%string;
      transactionType := Some "S-Sale"%string |};
   {| transactionDate := Some "2024-03-01"%string;
      transactionType := Some "P-Purchase"%string |};
   {| transactionDate := None;
      transactionType := Some "S-Sale"%string |}].

End FMPCollector.

(** ** The aggregator as the specification words it *)

Module Aggregator.

(** A named sub-score with its weight and presence flag. *)
Record NamedSubScore : Type := {
  name : string;
  score : Q;
  weight : Q;
  present : bool
}.

Definition present_items (items : list NamedSubScore) : list NamedSubScore :=
  filter present items.

(** The sum of [f] over the items, as a right fold. *)
Fixpoint total (f : NamedSubScore -> Q) (items : list NamedSubScore) : Q :=
  match items with
  | [] => 0
  | i :: rest => f i + total f rest
  end.

(** The renormalised weight of a present item. *)
Definition effective_weight (items : list NamedSubScore) (i : NamedSubScore) : Q :=
  weight i / total weight (present_items items).

(** [sum(score_i * weight_i) / sum(weight_i)] over the present items. *)
Definition weighted_mean (items : list NamedSubScore) : Q :=
  total (fun i => score i * weight i) (present_items items)
  / total weight (present_items items).

(** The four candidates of the macro composite, in the order of the source. *)
Definition candidate (name : string) (w : Q)
    (ind : option MarketIndicators.Indicator) : NamedSubScore :=
  match ind with
  | Some d =>
      {| name := name; score := MarketIndicators.score d; weight := w;
         present := true |}
  | None => {| name := name; score := 0; weight := w; present := false |}
  end.

Definition macro_items (vix ad_line pc_ratio breadth : option MarketIndicators.Indicator)
    : list NamedSubScore :=
  [candidate "vix" 0.3 vix; candidate "advance_decline" 0.3 ad_line;
   candidate "put_call_ratio" 0.2 pc_ratio; candidate "market_breadth" 0.2 breadth].

End Aggregator.

(** A social-tuned model that answers with the entries of the published
    library, [neg], [neu], [pos] and [compound]. *)
Definition library_vader (text : string) : Py.outcome Py.dict :=
  Py.Ok [("neg"%string, 0.0); ("neu"%string, 0.3);
         ("pos"%string, 0.7); ("compound"%string, 0.8)].

(** ** The range of [datetime] *)

Module Datetime.

(** [datetime.min] and [datetime.max], in microseconds since 1970-01-01;
    arithmetic that leaves this range raises [OverflowError]. *)
Definition min : Z := -62135596800000000.
Definition max : Z := 253402300799999999.

Definition representable (t : Z) : Prop := (min <= t <= max)%Z.

(** The cutoff [datetime.now() - relativedelta(days=days)] exists. *)
Definition cutoff_representable (now days : Z) : Prop :=
  representable (now - days * FMPCollector.microseconds_per_day).

End Datetime.

(** ** The shape of a cleaned text *)

Module Shape.

(** Every character of [s] satisfies [p]. *)
Fixpoint all_chars (p : ascii -> bool) (s : string) : bool :=
  match s with
  | EmptyString => true
  | String c rest => p c && all_chars p rest
  end.

(** [after_space] holds at the start of the text and right after a space.
    White space is then refused, and the text may not end there. *)
Fixpoint tidy_from (after_space : bool) (s : string) : bool :=
  match s with
  | EmptyString => negb after_space
  | String c rest =>
      if Text.is_space c
      then Ascii.eqb c " " && negb after_space && tidy_from true rest
      else tidy_from false rest
  end.

(** A text whose only white space is single spaces between words. *)
Definition tidy (s : string) : bool :=
  match s with
  | EmptyString => true
  | String _ _ => tidy_from true s
  end.

End Shape.

(** The position of a label of [classify_sentiment] on its scale. *)
Definition label_rank (label : string) : Z :=
  if String.eqb label "Very Negative" then -2
  else if String.eqb label "Negative" then -1
  else if String.eqb label "Neutral" then 0
  else if String.eqb label "Positive" then 1
  else if String.eqb label "Very Positive" then 2
  else 0.

(** ** The readings of the indicator getters, [MarketIndicators.get_*] *)

Module Readings.

Import MarketIndicators.

(** The band table of [get_vix], from the current level of the index. *)
Definition vix_reading (current_vix : Q) : Indicator :=
  if Py.lt current_vix 15 then
    {| indicator_sentiment := "complacent"; score := 0.5 |}
  else if Py.lt current_vix 25 then
    {| indicator_sentiment := "neutral"; score := 0.0 |}
  else if Py.lt current_vix 35 then
    {| indicator_sentiment := "fearful"; score := -0.4 |}
  else
    {| indicator_sentiment := "panic"; score := -0.8 |}.

(** [get_advance_decline_line] from the percentage changes of the two
    exchanges, each absent when its history is empty:
    [(result.get('nyse_ad_pct', 0) + result.get('nasdaq_ad_pct', 0)) / 2]. *)
Definition avg_pct (nyse_ad_pct nasdaq_ad_pct : option Q) : Q :=
  (Py.get nyse_ad_pct 0 + Py.get nasdaq_ad_pct 0) / 2.

Definition advance_decline_table (avg_pct : Q) : Indicator :=
  if Py.gt avg_pct 5 then
    {| indicator_sentiment := "bullish"; score := 0.6 |}
  else if Py.gt avg_pct 0 then
    {| indicator_sentiment := "slightly_bullish"; score := 0.2 |}
  else if Py.gt avg_pct (-5) then
    {| indicator_sentiment := "slightly_bearish"; score := -0.2 |}
  else
    {| indicator_sentiment := "bearish"; score := -0.6 |}.

Definition advance_decline_reading (nyse_ad_pct nasdaq_ad_pct : option Q)
    : option Indicator :=
  match nyse_ad_pct, nasdaq_ad_pct with
  | None, None => None
  | _, _ => Some (advance_decline_table (avg_pct nyse_ad_pct nasdaq_ad_pct))
  end.

(** The ratio of [get_put_call_ratio_estimate], from the two volumes. *)
Definition put_call_ratio_of (puts_volume calls_volume : Q) : Py.outcome Q :=
  if Py.gt calls_volume 0 then Py.div puts_volume calls_volume else Py.Ok 0.

Definition put_call_table (pc_ratio : Q) : Indicator :=
  if Py.gt pc_ratio 1.5 then
    {| indicator_sentiment := "extreme_bearish"; score := 0.3 |}
  else if Py.gt pc_ratio 1.0 then
    {| indicator_sentiment := "bearish"; score := -0.4 |}
  else if Py.gt pc_ratio 0.7 then
    {| indicator_sentiment := "neutral"; score := 0.0 |}
  else
    {| indicator_sentiment := "bullish"; score := 0.4 |}.

Definition put_call_reading (puts_volume calls_volume : Q)
    : Py.outcome Indicator :=
  Py.bind (put_call_ratio_of puts_volume calls_volume)
    (fun pc_ratio => Py.Ok (put_call_table pc_ratio)).

(** The score table of [get_fear_greed_index_alternative]. *)
Definition fear_greed_score (value : Z) : Q :=
  if (value <? 25)%Z then -0.8
  else if (value <? 45)%Z then -0.4
  else if (value <? 55)%Z then 0.0
  else if (value <? 75)%Z then 0.4
  else 0.8.

(** The table of [get_market_breadth_spy], from the return of the fund and
    the current level of the volatility index, absent when [get_vix]
    returned the empty [dict]. *)
Definition market_breadth_reading (spy_return : Q) (vix_level : option Q)
    : Indicator :=
  match vix_level with
  | Some current_vix =>
      if Py.gt spy_return 0 && Py.gt current_vix 20 then
        {| indicator_sentiment := "narrow_leadership"; score := 0.1 |}
      else if Py.gt spy_return 0 then
        {| indicator_sentiment := "broad_strength"; score := 0.6 |}
      else if Py.lt spy_return (-5) then
        {| indicator_sentiment := "broad_weakness"; score := -0.6 |}
      else
        {| indicator_sentiment := "neutral"; score := 0.0 |}
  | None => {| indicator_sentiment := "unknown"; score := 0.0 |}
  end.

(** The outcome of a getter as an argument of the composite: a getter that
    raised has returned the empty [dict]. *)
Definition as_argument (reading : Py.outcome Indicator) : option Indicator :=
  match reading with
  | Py.Ok d => Some d
  | Py.Raise _ => None
  end.

(** [get_overall_market_sentiment] on what its four getters retrieved: the
    level of the volatility index, the changes of the two exchanges, the put
    and call volumes, and the return of the fund with the level that
    [get_market_breadth_spy] fetches on its own; each is absent when the
    getter had no data. *)
Definition overall_market_sentiment
    (current_vix : option Q) (nyse_ad_pct nasdaq_ad_pct : option Q)
    (volumes : option (Q * Q)) (spy : option (Q * option Q))
    : Run.t (option CompositeDict) :=
  get_overall_market_sentiment
    (option_map vix_reading current_vix)
    (advance_decline_reading nyse_ad_pct nasdaq_ad_pct)
    (match volumes with
     | Some (puts_volume, calls_volume) =>
         as_argument (put_call_reading puts_volume calls_volume)
     | None => None
     end)
    (option_map (fun s => market_breadth_reading (fst s) (snd s)) spy).

(** Every score that is present lies between [lo] and [hi]. *)
Definition scores_within (lo hi : Q) (inds : list (option Indicator)) : Prop :=
  Forall (fun ind =>
            match ind with
            | Some d => lo <= score d <= hi
            | None => True
            end) inds.

End Readings.

(** ** Filing activity, [SECEdgarCollector.analyze_insider_sentiment] *)

Module SECEdgarCollector.

(** A filing as [get_recent_filings] builds it; the function reads its
    [filing_date] entry only. *)
Record Filing : Type := {
  filing_date : option string
}.

(** The result, without its [description] text; [latest_date] is only
    present on the non-empty path. *)
Record ActivityDict : Type := {
  sentiment : string;
  score : Q;
  filing_count : Z;
  latest_date : option string
}.

(** [min(a, b)] on floats. *)
Definition min (a b : Q) : Q := if Py.lt b a then b else a.

Local Open Scope py_scope.

Definition analyze_insider_sentiment (form4_filings : list Filing)
    : Py.outcome ActivityDict :=
  match form4_filings with
  | [] =>
      Py.Ok {| sentiment := "neutral";
               score := 0.0;
               filing_count := 0;
               latest_date := None |}
  | first :: _ =>
      let recent_count := Py.len form4_filings in
      let score := min (Py.of_int recent_count / 20.0) 1.0 in
      date <-
        match filing_date first with
        | Some text => Py.Ok text
        | None => Py.Raise (Py.KeyError "filing_date")
        end ;;
      Py.Ok {| sentiment := "active";
               score := score;
               filing_count := recent_count;
               latest_date := Some date |}
  end.

Definition sample_filings : list Filing :=
  [{| filing_date := Some "2024-03-01"%string |};
   {| filing_date := Some "2024-02-12"%string |};
   {| filing_date := None |}].

End SECEdgarCollector.

(** ** Labels and colours of the charts, [SentimentVisualizer] *)

Module SentimentVisualizer.

Definition _classify_sentiment (score : Q) : string :=
  if Py.ge score 0.5 then "Very Positive"
  else if Py.ge score 0.05 then "Positive"
  else if Py.gt score (-0.05) then "Neutral"
  else if Py.gt score (-0.5) then "Negative"
  else "Very Negative".

(** The colour of the marker in [plot_sentiment_gauge]. *)
Definition gauge_color (sentiment_score : Q) : string :=
  if Py.lt sentiment_score (-0.05) then "#e74c3c"
  else if Py.gt sentiment_score 0.05 then "#2ecc71"
  else "#95a5a6".

End SentimentVisualizer.

(** * Properties *)

(** ** Comparisons and counting *)

Lemma gt_iff x y : Py.gt x y = true <-> y < x.
Proof.
  unfold Py.gt. rewrite negb_true_iff.
  split; intro H.
  - apply Qnot_le_lt. intro Hle. apply Qle_bool_iff in Hle. congruence.
  - destruct (Qle_bool x y) eqn:E; [|reflexivity].
    apply Qle_bool_iff in E. exfalso. apply (Qlt_not_le _ _ H E).
Qed.

Lemma gt_false_iff x y : Py.gt x y = false <-> x <= y.
Proof. unfold Py.gt. rewrite negb_false_iff. apply Qle_bool_iff. Qed.

Lemma lt_iff x y : Py.lt x y = true <-> x < y.
Proof. unfold Py.lt. apply (gt_iff y x). Qed.

Lemma lt_false_iff x y : Py.lt x y = false <-> y <= x.
Proof. unfold Py.lt. apply (gt_false_iff y x). Qed.

Lemma ge_iff x y : Py.ge x y = true <-> y <= x.
Proof. unfold Py.ge. apply Qle_bool_iff. Qed.

Lemma ge_false_iff x y : Py.ge x y = false <-> x < y.
Proof.
  unfold Py.ge. rewrite <- (negb_involutive (Qle_bool y x)), negb_false_iff.
  apply (gt_iff y x).
Qed.

(** Split on every float comparison of the goal and turn each outcome into
    the order fact it stands for. *)
Ltac compare_floats :=
  repeat match goal with
    | |- context [Py.ge ?a ?b] =>
        let E := fresh "E" in
        destruct (Py.ge a b) eqn:E;
        [apply ge_iff in E | apply ge_false_iff in E]
    | |- context [Py.gt ?a ?b] =>
        let E := fresh "E" in
        destruct (Py.gt a b) eqn:E;
        [apply gt_iff in E | apply gt_false_iff in E]
    | |- context [Py.lt ?a ?b] =>
        let E := fresh "E" in
        destruct (Py.lt a b) eqn:E;
        [apply lt_iff in E | apply lt_false_iff in E]
    end.

Lemma count_if_nonneg {A : Type} (p : A -> bool) (xs : list A) :
  (0 <= Py.count_if p xs)%Z.
Proof. induction xs as [|x rest IH]; simpl; [lia | destruct (p x); lia]. Qed.

Lemma count_if_filter {A : Type} (p : A -> bool) (xs : list A) :
  Py.count_if p xs = Py.len (filter p xs).
Proof.
  unfold Py.len. induction xs as [|x rest IH]; simpl; [reflexivity|].
  rewrite IH. destruct (p x); simpl List.length; lia.
Qed.

Lemma count_if_none {A : Type} (p : A -> bool) (xs : list A) :
  Forall (fun x => p x = false) xs -> Py.count_if p xs = 0%Z.
Proof.
  induction 1 as [|x rest Hx _ IH]; simpl; [reflexivity|].
  rewrite Hx, IH. reflexivity.
Qed.

Lemma div_ok (x y : Q) : ~ y == 0 -> Py.div x y = Py.Ok (x / y).
Proof.
  intro Hy. unfold Py.div.
  destruct (Qeq_bool y 0) eqn:E; [|reflexivity].
  apply Qeq_bool_iff in E. contradiction.
Qed.

Lemma halve (k : Q) : k / 2 == k * (1 # 2).
Proof. field. Qed.

Lemma of_int_pos (n : Z) : (0 < n)%Z -> ~ Py.of_int n == 0.
Proof.
  intros Hn H. unfold Py.of_int, inject_Z, Qeq in H. simpl in H. lia.
Qed.

(** ** The classifier *)

(** C4. Every score gets one of the five labels, and each label is returned
    exactly on its band of the table: [score >= 0.5] Very Positive,
    [0.05 <= score < 0.5] Positive, [-0.05 < score < 0.05] Neutral,
    [-0.5 < score <= -0.05] Negative, [score <= -0.5] Very Negative. *)
Theorem classify_sentiment_table (score : Q) :
  (classify_sentiment score = "Very Positive"%string <-> 0.5 <= score)
  /\ (classify_sentiment score = "Positive"%string <-> 0.05 <= score < 0.5)
  /\ (classify_sentiment score = "Neutral"%string <-> -0.05 < score < 0.05)
  /\ (classify_sentiment score = "Negative"%string <-> -0.5 < score <= -0.05)
  /\ (classify_sentiment score = "Very Negative"%string <-> score <= -0.5)
  /\ In (classify_sentiment score)
        ["Very Positive"; "Positive"; "Neutral"; "Negative";
         "Very Negative"]%string.
Proof.
  unfold classify_sentiment. compare_floats;
    (split; [|split; [|split; [|split; [|split]]]]);
    try (simpl; tauto);
    split; intros; try discriminate; try lra; try reflexivity.
Qed.

Lemma classify_sentiment_table_witness :
  classify_sentiment 0.5 = "Very Positive"%string
  /\ classify_sentiment 0.05 = "Positive"%string
  /\ classify_sentiment 0.04999 = "Neutral"%string
  /\ classify_sentiment (-0.2) = "Negative"%string
  /\ classify_sentiment (-0.5) = "Very Negative"%string.
Proof.
  split; [|split; [|split; [|split]]].
  - apply (proj1 (classify_sentiment_table 0.5)). lra.
  - apply (proj1 (proj2 (classify_sentiment_table 0.05))). lra.
  - apply (proj1 (proj2 (proj2 (classify_sentiment_table 0.04999)))). lra.
  - apply (proj1 (proj2 (proj2 (proj2 (classify_sentiment_table (-0.2)))))). lra.
  - apply (proj1 (proj2 (proj2 (proj2 (proj2
             (classify_sentiment_table (-0.5))))))).
    lra.
Defined.

(** C5, as stated, fails: at the boundary [-0.05] the test [score > -0.05]
    is false, so the score is not labelled Neutral. *)
Lemma boundary_score_is_not_neutral :
  ~ (classify_sentiment (-0.05) = "Neutral"%string
     /\ classify_sentiment (-0.050001) = "Negative"%string).
Proof. intros [H _]. vm_compute in H. discriminate H. Qed.

(** C5, amended. The boundary score [-0.05] is labelled Negative, as is
    [-0.050001]. *)
Theorem classify_sentiment_boundary :
  classify_sentiment (-0.05) = "Negative"%string
  /\ classify_sentiment (-0.050001) = "Negative"%string.
Proof. split; reflexivity. Qed.

(** ** Text normalisation *)

Lemma truthy_false (s : string) : Text.truthy s = false <-> s = EmptyString.
Proof. destruct s; simpl; split; intro H; congruence. Qed.

Lemma truthy_true (s : string) : Text.truthy s = true <-> s <> EmptyString.
Proof. destruct s; simpl; split; intro H; congruence. Qed.

Lemma space_not_url (c : ascii) (rest : string) :
  Text.is_space c = true -> Text.url_ahead (String c rest) = false.
Proof.
  intro Hc. unfold Text.url_ahead. cbn [Text.literal_ahead].
  destruct (Ascii.eqb_spec "h" c) as [<-|_]; [vm_compute in Hc; discriminate|].
  destruct (Ascii.eqb_spec "w" c) as [<-|_]; [vm_compute in Hc; discriminate|].
  reflexivity.
Qed.

Lemma space_not_marker (c m : ascii) :
  Text.is_space c = true -> Text.is_space m = false -> Ascii.eqb c m = false.
Proof.
  intros Hc Hm. destruct (Ascii.eqb_spec c m) as [->|_]; congruence.
Qed.

Lemma sub_urls_blank (s : string) :
  Text.blank s = true -> Text.sub_urls false s = s.
Proof.
  induction s as [|c rest IH]; simpl; [reflexivity|].
  intro H. apply andb_true_iff in H as [Hc Hrest].
  rewrite (space_not_url c rest Hc). rewrite IH by assumption. reflexivity.
Qed.

Lemma sub_mentions_blank (s : string) :
  Text.blank s = true -> Text.sub_mentions false s = s.
Proof.
  induction s as [|c rest IH]; simpl; [reflexivity|].
  intro H. apply andb_true_iff in H as [Hc Hrest].
  rewrite (space_not_marker c "@" Hc eq_refl). simpl.
  rewrite IH by assumption. reflexivity.
Qed.

Lemma sub_hash_blank (s : string) :
  Text.blank s = true -> Text.sub_hash s = s.
Proof.
  induction s as [|c rest IH]; simpl; [reflexivity|].
  intro H. apply andb_true_iff in H as [Hc Hrest].
  rewrite (space_not_marker c "#" Hc eq_refl).
  rewrite IH by assumption. reflexivity.
Qed.

Lemma split_blank (s : string) :
  Text.blank s = true -> Text.split s = [].
Proof.
  unfold Text.split. induction s as [|c rest IH]; simpl; [reflexivity|].
  intro H. apply andb_true_iff in H as [Hc Hrest].
  rewrite Hc. auto.
Qed.

(** A text of white space only is cleaned to the empty text. *)
Lemma clean_text_blank (text : string) :
  Text.blank text = true -> clean_text text = EmptyString.
Proof.
  intro H. unfold clean_text.
  rewrite (sub_urls_blank _ H), (sub_mentions_blank _ H), (sub_hash_blank _ H).
  rewrite (split_blank _ H). reflexivity.
Qed.

Example clean_text_noise :
  clean_text "https://t.co/abc   @alice www.example.com #" = EmptyString.
Proof. reflexivity. Qed.

Example clean_text_post :
  clean_text "Check https://t.co/abc  @bob #AAPL to   the moon "
  = "Check AAPL to the moon"%string.
Proof. reflexivity. Qed.

(** ** The blender *)

Section AnalyzerFacts.

Variable tb : string -> Py.outcome (Q * Q).
Variable vd : string -> Py.outcome Py.dict.

(** The wrappers never raise: a failing model is replaced by its neutral
    default. *)
Lemma analyze_with_textblob_cases (text : string) :
  analyze_with_textblob tb text =
  match tb text with
  | Py.Ok blob =>
      ([CallTextBlob text],
       Py.Ok {| polarity := fst blob; subjectivity_tb := snd blob |})
  | Py.Raise _ =>
      ([CallTextBlob text; LogError "TextBlob analysis error"],
       Py.Ok {| polarity := 0.0; subjectivity_tb := 0.0 |})
  end.
Proof.
  unfold analyze_with_textblob.
  cbv [Run.try_except Run.bind Run.emit Run.lift Run.ret].
  destruct (tb text); reflexivity.
Qed.

Lemma analyze_with_vader_cases (text : string) :
  analyze_with_vader vd text =
  match vd text with
  | Py.Ok scores => ([CallVader text], Py.Ok scores)
  | Py.Raise _ =>
      ([CallVader text; LogError "VADER analysis error"], Py.Ok vader_fallback)
  end.
Proof.
  unfold analyze_with_vader.
  cbv [Run.try_except Run.bind Run.emit Run.lift Run.ret].
  destruct (vd text); reflexivity.
Qed.

Lemma analyze_with_textblob_total (text : string) :
  exists A, Run.value (analyze_with_textblob tb text) = Py.Ok A.
Proof.
  rewrite analyze_with_textblob_cases. destruct (tb text); eexists; reflexivity.
Qed.

Lemma analyze_with_vader_total (text : string) :
  exists B, Run.value (analyze_with_vader vd text) = Py.Ok B.
Proof.
  rewrite analyze_with_vader_cases. destruct (vd text); eexists; reflexivity.
Qed.

(** On the empty path nothing but the warning happens. *)
Lemma analyze_empty_path (text : string) :
  clean_text text = EmptyString ->
  analyze tb vd text
  = ([LogWarning "Empty text after cleaning"], Py.Ok empty_result).
Proof.
  intro H. unfold analyze. rewrite H. reflexivity.
Qed.

(** On the scoring path the result is assembled from the two wrapped
    outputs, provided the four entries read from the second one exist. *)
Lemma analyze_scoring_path (text : string) (A : TextBlobDict) (B : Py.dict)
    (c pos neg neu : Q) :
  clean_text text <> EmptyString ->
  Run.value (analyze_with_textblob tb (clean_text text)) = Py.Ok A ->
  Run.value (analyze_with_vader vd (clean_text text)) = Py.Ok B ->
  Py.getitem B "compound" = Py.Ok c ->
  Py.getitem B "positive" = Py.Ok pos ->
  Py.getitem B "negative" = Py.Ok neg ->
  Py.getitem B "neutral" = Py.Ok neu ->
  Run.value (analyze tb vd text)
  = Py.Ok {| sentiment_score := c * 0.6 + polarity A * 0.4;
             textblob_score := polarity A;
             vader_score := c;
             confidence := 1 - Qabs (c - polarity A) / 2;
             subjectivity := subjectivity_tb A;
             vader_parts := Some {| vader_positive := pos;
                                    vader_negative := neg;
                                    vader_neutral := neu |} |}.
Proof.
  intros Hne HA HB Hc Hpos Hneg Hneu.
  apply truthy_true in Hne. unfold analyze. rewrite Hne. simpl negb. cbv iota.
  destruct (analyze_with_textblob tb (clean_text text)) as [tr1 [a|e]];
    simpl in HA; [|discriminate]. injection HA as ->.
  destruct (analyze_with_vader vd (clean_text text)) as [tr2 [b|e]];
    simpl in HB; [|discriminate]. injection HB as ->.
  cbv [Run.bind Run.lift Run.ret Run.value].
  rewrite Hc, Hpos, Hneg, Hneu. reflexivity.
Qed.

(** If an entry read from the second output is missing, [analyze] raises. *)
Lemma analyze_missing_entry (text : string) (B : Py.dict) (c : Q) :
  clean_text text <> EmptyString ->
  Run.value (analyze_with_vader vd (clean_text text)) = Py.Ok B ->
  Py.getitem B "compound" = Py.Ok c ->
  Py.getitem B "positive" = Py.Raise (Py.KeyError "positive") ->
  Run.value (analyze tb vd text) = Py.Raise (Py.KeyError "positive").
Proof.
  intros Hne HB Hc Hpos.
  apply truthy_true in Hne. unfold analyze. rewrite Hne. simpl negb. cbv iota.
  destruct (analyze_with_textblob_total (clean_text text)) as [A HA].
  destruct (analyze_with_textblob tb (clean_text text)) as [tr1 [a|e]];
    simpl in HA; [|discriminate].
  destruct (analyze_with_vader vd (clean_text text)) as [tr2 [b|e]];
    simpl in HB; [|discriminate]. injection HB as ->.
  cbv [Run.bind Run.lift Run.ret Run.value].
  rewrite Hc, Hpos. reflexivity.
Qed.

End AnalyzerFacts.

Lemma has_key_getitem (d : Py.dict) (key : string) :
  Py.has_key d key = true -> exists v, Py.getitem d key = Py.Ok v.
Proof.
  unfold Py.has_key. destruct (Py.getitem d key) as [v|e]; intro H;
    [exists v; reflexivity | discriminate].
Qed.

(** C8. A text that is empty or made of white space only, or that
    [clean_text] otherwise reduces to the empty text, gets the zero result
    (score, confidence and subjectivity all 0), and the only recorded event
    is the warning: neither lexical model is invoked. *)
Theorem analyze_empty_text
    (tb : string -> Py.outcome (Q * Q)) (vd : string -> Py.outcome Py.dict)
    (text : string) :
  Text.blank text = true \/ clean_text text = EmptyString ->
  exists r,
    Run.value (analyze tb vd text) = Py.Ok r
    /\ sentiment_score r == 0 /\ confidence r == 0 /\ subjectivity r == 0
    /\ textblob_score r == 0 /\ vader_score r == 0
    /\ Run.trace (analyze tb vd text) = [LogWarning "Empty text after cleaning"]
    /\ existsb is_model_call (Run.trace (analyze tb vd text)) = false.
Proof.
  intro H.
  assert (Hempty : clean_text text = EmptyString).
  { destruct H as [Hblank|Hclean]; [apply clean_text_blank|]; assumption. }
  rewrite (analyze_empty_path tb vd text Hempty).
  exists empty_result. cbn.
  repeat (split; [reflexivity|]). reflexivity.
Qed.

Lemma analyze_empty_text_witness :
  exists r,
    Run.value (analyze sample_textblob sample_vader "   ") = Py.Ok r
    /\ sentiment_score r == 0 /\ confidence r == 0 /\ subjectivity r == 0
    /\ textblob_score r == 0 /\ vader_score r == 0
    /\ Run.trace (analyze sample_textblob sample_vader "   ")
       = [LogWarning "Empty text after cleaning"]
    /\ existsb is_model_call
         (Run.trace (analyze sample_textblob sample_vader "   ")) = false.
Proof.
  apply (analyze_empty_text sample_textblob sample_vader "   ").
  left. reflexivity.
Defined.

(** The same holds for a text made of a link and a mention only. *)
Example analyze_noise_only :
  analyze sample_textblob sample_vader "https://t.co/abc @alice"
  = ([LogWarning "Empty text after cleaning"], Py.Ok empty_result).
Proof. reflexivity. Qed.

(** What the scoring path computes when the second output carries all the
    entries read from it: with [A] the wrapped output of the general-purpose
    model and [B] that of the social-tuned model, the result has score
    [0.6 * B.compound + 0.4 * A.polarity] and confidence
    [1 - |B.compound - A.polarity| / 2]; equal values give confidence 1 and
    the values +1 and -1 give confidence 0. *)
Lemma analyze_blend
    (tb : string -> Py.outcome (Q * Q)) (vd : string -> Py.outcome Py.dict)
    (text : string) (A : TextBlobDict) (B : Py.dict) (compound : Q) :
  clean_text text <> EmptyString ->
  Run.value (analyze_with_textblob tb (clean_text text)) = Py.Ok A ->
  Run.value (analyze_with_vader vd (clean_text text)) = Py.Ok B ->
  Py.getitem B "compound" = Py.Ok compound ->
  Py.has_key B "positive" = true ->
  Py.has_key B "negative" = true ->
  Py.has_key B "neutral" = true ->
  exists r,
    Run.value (analyze tb vd text) = Py.Ok r
    /\ sentiment_score r == 0.6 * compound + 0.4 * polarity A
    /\ confidence r == 1 - Qabs (compound - polarity A) / 2
    /\ (compound == polarity A -> confidence r == 1)
    /\ (compound == 1 /\ polarity A == -1 \/ compound == -1 /\ polarity A == 1 ->
        confidence r == 0).
Proof.
  intros Hne HA HB Hc Hpos Hneg Hneu.
  apply has_key_getitem in Hpos as [pos Hpos].
  apply has_key_getitem in Hneg as [neg Hneg].
  apply has_key_getitem in Hneu as [neu Hneu].
  eexists. split.
  - exact (analyze_scoring_path tb vd text A B compound pos neg neu
             Hne HA HB Hc Hpos Hneg Hneu).
  - cbn [sentiment_score confidence].
    split; [lra|]. split; [reflexivity|]. split.
    + intro Heq.
      assert (Hz : compound - polarity A == 0) by lra.
      rewrite Hz. reflexivity.
    + intros [[H1 H2]|[H1 H2]].
      * assert (Hz : compound - polarity A == 2) by lra.
        rewrite Hz. reflexivity.
      * assert (Hz : compound - polarity A == -2) by lra.
        rewrite Hz. reflexivity.
Qed.

Lemma analyze_blend_witness :
  exists r,
    Run.value (analyze sample_textblob sample_vader "Great $AAPL earnings!")
    = Py.Ok r
    /\ sentiment_score r == 0.6 * 0.8 + 0.4 * 0.5
    /\ confidence r == 1 - Qabs (0.8 - 0.5) / 2.
Proof.
  destruct (analyze_blend sample_textblob sample_vader "Great $AAPL earnings!"
              {| polarity := 0.5; subjectivity_tb := 0.3 |}
              [("negative"%string, 0.0); ("neutral"%string, 0.3);
               ("positive"%string, 0.7); ("compound"%string, 0.8)]
              0.8)
    as [r [Hr [Hs [Hc _]]]].
  - vm_compute. discriminate.
  - reflexivity.
  - reflexivity.
  - reflexivity.
  - reflexivity.
  - reflexivity.
  - reflexivity.
  - exists r. split; [exact Hr|]. split; [exact Hs | exact Hc].
Defined.

Lemma getitem_raise (d : Py.dict) (key : string) (e : Py.exn) :
  Py.getitem d key = Py.Raise e -> e = Py.KeyError key.
Proof.
  induction d as [|[k v] rest IH]; simpl.
  - intro H. injection H as <-. reflexivity.
  - destruct (String.eqb k key); [discriminate | exact IH].
Qed.

(** C6. The blend is computed but not returned when the social-tuned model
    answers as the published library does: for a text whose cleaned form is
    not empty and a model output that has a [compound] entry and no
    [positive] entry (the library names its entries [neg], [neu], [pos] and
    [compound]), [analyze] raises [KeyError] on the [positive] entry it
    reads while building its result, after both models were invoked. *)
Theorem analyze_raises_without_positive_entry
    (tb : string -> Py.outcome (Q * Q)) (vd : string -> Py.outcome Py.dict)
    (text : string) (d : Py.dict) :
  clean_text text <> EmptyString ->
  vd (clean_text text) = Py.Ok d ->
  Py.has_key d "compound" = true ->
  Py.has_key d "positive" = false ->
  Run.value (analyze tb vd text) = Py.Raise (Py.KeyError "positive")
  /\ filter is_model_call (Run.trace (analyze tb vd text))
     = [CallTextBlob (clean_text text); CallVader (clean_text text)].
Proof.
  intros Hne Hvd Hcompound Hpositive.
  apply has_key_getitem in Hcompound as [c Hc].
  assert (Hpos : Py.getitem d "positive" = Py.Raise (Py.KeyError "positive")).
  { unfold Py.has_key in Hpositive.
    destruct (Py.getitem d "positive") as [v|e] eqn:E; [discriminate|].
    rewrite (getitem_raise d "positive" e E). reflexivity. }
  assert (HB : Run.value (analyze_with_vader vd (clean_text text)) = Py.Ok d).
  { rewrite analyze_with_vader_cases, Hvd. reflexivity. }
  split.
  - exact (analyze_missing_entry tb vd text d c Hne HB Hc Hpos).
  - apply truthy_true in Hne.
    unfold analyze. rewrite Hne. simpl negb. cbv iota.
    rewrite analyze_with_textblob_cases, analyze_with_vader_cases, Hvd.
    destruct (tb (clean_text text)) as [blob|e1];
      cbv [Run.bind Run.lift Run.ret Run.trace fst];
      rewrite Hc, Hpos; reflexivity.
Qed.

Lemma analyze_raises_without_positive_entry_witness :
  Run.value (analyze sample_textblob library_vader "Great $AAPL earnings!")
  = Py.Raise (Py.KeyError "positive").
Proof.
  apply (analyze_raises_without_positive_entry sample_textblob library_vader
           "Great $AAPL earnings!"
           [("neg"%string, 0.0); ("neu"%string, 0.3);
            ("pos"%string, 0.7); ("compound"%string, 0.8)]).
  - vm_compute. discriminate.
  - reflexivity.
  - reflexivity.
  - reflexivity.
Defined.

(** C1, as stated, fails: nothing is clamped, so models that answer outside
    their documented ranges push all three values out of range. *)
Lemma analyze_not_clamped :
  ~ (forall (tb : string -> Py.outcome (Q * Q))
            (vd : string -> Py.outcome Py.dict) (text : string) r,
        Run.value (analyze tb vd text) = Py.Ok r ->
        (-1 <= sentiment_score r <= 1)
        /\ (0 <= confidence r <= 1)
        /\ (0 <= subjectivity r <= 1)).
Proof.
  intro H.
  destruct (H wild_textblob wild_vader "buy"%string _ eq_refl)
    as [[_ Hscore] _].
  vm_compute in Hscore. apply Hscore. reflexivity.
Qed.

Example analyze_wild_values :
  exists r,
    Run.value (analyze wild_textblob wild_vader "buy") = Py.Ok r
    /\ sentiment_score r == 2.6 /\ confidence r == -2 /\ subjectivity r == 2.
Proof. eexists. split; [reflexivity|]. repeat split. Qed.

Section DocumentedRanges.

Variable tb : string -> Py.outcome (Q * Q).
Variable vd : string -> Py.outcome Py.dict.

(** The general-purpose model answers with a polarity in [-1, 1] and a
    subjectivity in [0, 1]. *)
Hypothesis tb_range : forall text p s,
  tb text = Py.Ok (p, s) -> (-1 <= p <= 1) /\ (0 <= s <= 1).

(** The social-tuned model answers with a [dict] that carries the four
    entries the source reads, the compound one in [-1, 1]. *)
Hypothesis vd_keys : forall text d,
  vd text = Py.Ok d ->
  Py.has_key d "compound" = true /\ Py.has_key d "positive" = true
  /\ Py.has_key d "negative" = true /\ Py.has_key d "neutral" = true.

Hypothesis vd_range : forall text d c,
  vd text = Py.Ok d -> Py.getitem d "compound" = Py.Ok c -> -1 <= c <= 1.

(** C1, amended. When the two lexical models answer within their documented
    ranges, [analyze] returns, for every text, a result whose score is in
    [-1, 1] and whose confidence and subjectivity are in [0, 1]; no clamping
    is involved. *)
Theorem analyze_in_range (text : string) :
  exists r,
    Run.value (analyze tb vd text) = Py.Ok r
    /\ (-1 <= sentiment_score r <= 1)
    /\ (0 <= confidence r <= 1)
    /\ (0 <= subjectivity r <= 1).
Proof.
  destruct (string_dec (clean_text text) EmptyString) as [Hempty|Hne].
  - rewrite (analyze_empty_path tb vd text Hempty).
    exists empty_result. cbn. repeat split; lra.
  - set (cleaned := clean_text text) in *.
    assert (HA : exists A, Run.value (analyze_with_textblob tb cleaned) = Py.Ok A
                   /\ (-1 <= polarity A <= 1) /\ (0 <= subjectivity_tb A <= 1)).
    { rewrite analyze_with_textblob_cases.
      destruct (tb cleaned) as [[p s]|e] eqn:E.
      - eexists. split; [reflexivity|]. exact (tb_range cleaned p s E).
      - eexists. split; [reflexivity|]. cbn. split; lra. }
    assert (HB : exists B c pos neg neu,
                   Run.value (analyze_with_vader vd cleaned) = Py.Ok B
                   /\ Py.getitem B "compound" = Py.Ok c
                   /\ Py.getitem B "positive" = Py.Ok pos
                   /\ Py.getitem B "negative" = Py.Ok neg
                   /\ Py.getitem B "neutral" = Py.Ok neu
                   /\ -1 <= c <= 1).
    { rewrite analyze_with_vader_cases.
      destruct (vd cleaned) as [d|e] eqn:E.
      - destruct (vd_keys cleaned d E) as [Hc [Hpos [Hneg Hneu]]].
        apply has_key_getitem in Hc as [c Hc].
        apply has_key_getitem in Hpos as [pos Hpos].
        apply has_key_getitem in Hneg as [neg Hneg].
        apply has_key_getitem in Hneu as [neu Hneu].
        exists d, c, pos, neg, neu.
        repeat (split; [eassumption || reflexivity|]).
        exact (vd_range cleaned d c E Hc).
      - exists vader_fallback, 0.0, 0.0, 0.0, 1.0.
        repeat (split; [reflexivity|]). lra. }
    destruct HA as [A [HA [Hp Hs]]].
    destruct HB as [B [c [pos [neg [neu [HB [Hc [Hpos [Hneg [Hneu Hcr]]]]]]]]]].
    eexists. split.
    + exact (analyze_scoring_path tb vd text A B c pos neg neu
               Hne HA HB Hc Hpos Hneg Hneu).
    + cbn [sentiment_score confidence subjectivity].
      assert (Habs : 0 <= Qabs (c - polarity A) <= 2).
      { split; [apply Qabs_nonneg|].
        apply Qabs_Qle_condition. split; lra. }
      generalize dependent (Qabs (c - polarity A)). intros k Hk.
      rewrite (halve k). repeat split; lra.
Qed.

End DocumentedRanges.

Lemma analyze_in_range_witness :
  exists r,
    Run.value (analyze sample_textblob sample_vader "Great $AAPL earnings!")
    = Py.Ok r
    /\ (-1 <= sentiment_score r <= 1)
    /\ (0 <= confidence r <= 1)
    /\ (0 <= subjectivity r <= 1).
Proof.
  apply (analyze_in_range sample_textblob sample_vader).
  - intros text p s H. injection H as <- <-. split; lra.
  - intros text d H. injection H as <-. repeat split; reflexivity.
  - intros text d c H Hc. injection H as <-. injection Hc as <-. lra.
Defined.

(** ** The batch summary *)

(** C3, as stated, fails: for the empty batch the mean is the number 0 and
    the result carries no percentage entry at all. *)
Lemma empty_batch_mean_is_a_number :
  ~ (forall (tb : string -> Py.outcome (Q * Q))
            (vd : string -> Py.outcome Py.dict),
        exists r,
          Run.value (get_overall_sentiment tb vd []) = Py.Ok r
          /\ total_count r = 0%Z
          /\ (exists p, percentages r = Some p
                        /\ positive_percentage p == 0
                        /\ negative_percentage p == 0
                        /\ neutral_percentage p == 0)
          /\ ~ average_sentiment r == 0).
Proof.
  intro H.
  destruct (H failing_textblob failing_vader) as [r [Hr [_ [_ Hmean]]]].
  cbn in Hr. injection Hr as <-. apply Hmean. reflexivity.
Qed.

(** C3, amended. For the empty batch the summary has a total of 0, the three
    bucket counts equal to 0 and the mean score reported as the number 0; it
    has no percentage entries, and no model is invoked. *)
Theorem get_overall_sentiment_empty
    (tb : string -> Py.outcome (Q * Q)) (vd : string -> Py.outcome Py.dict) :
  exists r,
    get_overall_sentiment tb vd [] = ([], Py.Ok r)
    /\ total_count r = 0%Z
    /\ positive_count r = 0%Z
    /\ negative_count r = 0%Z
    /\ neutral_count r = 0%Z
    /\ average_sentiment r == 0
    /\ percentages r = None.
Proof.
  eexists. split; [reflexivity|]. cbn.
  repeat (split; [reflexivity|]). reflexivity.
Qed.

(** ** The macro composite *)

(** C2, as stated, fails: with no indicator present the function returns the
    empty [dict], not a result record. *)
Lemma no_indicator_gives_no_record :
  ~ (exists r,
        Run.value
          (MarketIndicators.get_overall_market_sentiment None None None None)
        = Py.Ok (Some r)
        /\ MarketIndicators.composite_score r == 0).
Proof. intros [r [H _]]. cbn in H. discriminate H. Qed.

(** C2, amended. When none of the candidate sub-scores is present, the
    function logs a warning and returns the empty [dict]: it carries no
    score and no label, and no division takes place, so nothing is raised. *)
Theorem market_sentiment_absent
    (vix ad_line pc_ratio breadth : option MarketIndicators.Indicator) :
  Aggregator.present_items
    (Aggregator.macro_items vix ad_line pc_ratio breadth) = [] ->
  MarketIndicators.get_overall_market_sentiment vix ad_line pc_ratio breadth
  = ([LogInfo "Calculating overall market sentiment";
      LogWarning "No indicator data available"],
     Py.Ok None).
Proof.
  destruct vix, ad_line, pc_ratio, breadth; cbn; intro H;
    try discriminate H.
  reflexivity.
Qed.

Lemma market_sentiment_absent_witness :
  MarketIndicators.get_overall_market_sentiment None None None None
  = ([LogInfo "Calculating overall market sentiment";
      LogWarning "No indicator data available"],
     Py.Ok None).
Proof.
  apply (market_sentiment_absent None None None None). reflexivity.
Defined.

(** C7. When at least one candidate sub-score is present, the composite
    score is [sum(score_i * weight_i) / sum(weight_i)] over the present
    items; equivalently, the weights of the present items, divided by their
    sum, add up to 1 and the composite score is the mean under these
    renormalised weights. *)
Theorem market_sentiment_weighted_mean
    (vix ad_line pc_ratio breadth : option MarketIndicators.Indicator) :
  Aggregator.present_items
    (Aggregator.macro_items vix ad_line pc_ratio breadth) <> [] ->
  exists r,
    Run.value
      (MarketIndicators.get_overall_market_sentiment vix ad_line pc_ratio breadth)
    = Py.Ok (Some r)
    /\ MarketIndicators.composite_score r
       == Aggregator.weighted_mean
            (Aggregator.macro_items vix ad_line pc_ratio breadth)
    /\ Aggregator.total
         (Aggregator.effective_weight
            (Aggregator.macro_items vix ad_line pc_ratio breadth))
         (Aggregator.present_items
            (Aggregator.macro_items vix ad_line pc_ratio breadth)) == 1
    /\ MarketIndicators.composite_score r
       == Aggregator.total
            (fun i =>
               Aggregator.score i
               * Aggregator.effective_weight
                   (Aggregator.macro_items vix ad_line pc_ratio breadth) i)
            (Aggregator.present_items
               (Aggregator.macro_items vix ad_line pc_ratio breadth)).
Proof.
  intros Hne.
  destruct vix as [[? s1]|], ad_line as [[? s2]|], pc_ratio as [[? s3]|],
    breadth as [[? s4]|];
    try (exfalso; apply Hne; reflexivity);
    (eexists; split; [reflexivity|]);
    unfold Aggregator.weighted_mean, Aggregator.effective_weight; cbn;
    (split; [|split]); field.
Qed.

Lemma market_sentiment_weighted_mean_witness :
  exists r,
    Run.value
      (MarketIndicators.get_overall_market_sentiment
         MarketIndicators.sample_vix MarketIndicators.sample_ad_line None None)
    = Py.Ok (Some r)
    /\ MarketIndicators.composite_score r == -0.05.
Proof.
  destruct (market_sentiment_weighted_mean
              MarketIndicators.sample_vix MarketIndicators.sample_ad_line
              None None) as [r [Hr [Hmean _]]].
  - vm_compute. discriminate.
  - exists r. split; [exact Hr|]. rewrite Hmean. reflexivity.
Defined.

(** The weak-breadth sample sits at [-0.05] and is labelled neutral by the
    composite thresholds. *)
Example market_sentiment_sample :
  exists r,
    Run.value
      (MarketIndicators.get_overall_market_sentiment
         MarketIndicators.sample_vix MarketIndicators.sample_ad_line None None)
    = Py.Ok (Some r)
    /\ MarketIndicators.composite_score r == -0.05
    /\ MarketIndicators.sentiment r = "neutral"%string.
Proof. eexists. split; [reflexivity|]. split; reflexivity. Qed.

(** ** Holder and insider scoring *)

Lemma len_cons_pos {A : Type} (x : A) (xs : list A) : (0 < Py.len (x :: xs))%Z.
Proof. unfold Py.len. simpl List.length. lia. Qed.

(** The guarded division of both scorers: it is only reached with a
    positive total, where it cannot raise. *)
Lemma guarded_ratio (n total : Z) :
  (if (total >? 0)%Z then Py.div (Py.of_int n) (Py.of_int total) else Py.Ok 0.0)
  = Py.Ok (if (total >? 0)%Z then Py.of_int n / Py.of_int total else 0.0).
Proof.
  destruct (Z.gtb_spec total 0) as [Hpos|_]; [|reflexivity].
  apply div_ok, of_int_pos. lia.
Qed.

(** C9. For a non-empty list of holders the score is
    [(increasing - decreasing) / total], and the label is bullish exactly
    when the score exceeds 0.3, bearish exactly when it is below -0.3, and
    neutral exactly in between. *)
Theorem institutional_sentiment_fraction (holders : list FMPCollector.Holder) :
  holders <> [] ->
  exists r,
    FMPCollector.analyze_institutional_sentiment holders = Py.Ok r
    /\ FMPCollector.score r
       == inject_Z (FMPCollector.increasing_holders_count holders
                    - FMPCollector.decreasing_holders_count holders)
          / inject_Z (FMPCollector.total_holders holders)
    /\ (FMPCollector.sentiment r = "bullish"%string
        <-> 0.3 < FMPCollector.score r)
    /\ (FMPCollector.sentiment r = "bearish"%string
        <-> FMPCollector.score r < -0.3)
    /\ (FMPCollector.sentiment r = "neutral"%string
        <-> -0.3 <= FMPCollector.score r <= 0.3).
Proof.
  intro Hne. destruct holders as [|h rest]; [congruence|].
  unfold FMPCollector.analyze_institutional_sentiment.
  cbv beta iota. rewrite guarded_ratio.
  destruct (Z.gtb_spec (Py.len (h :: rest)) 0) as [_|Hle];
    [|pose proof (len_cons_pos h rest); lia].
  cbn [Py.bind]. eexists. split; [reflexivity|].
  cbn [FMPCollector.score FMPCollector.sentiment].
  split.
  - unfold FMPCollector.increasing_holders_count,
      FMPCollector.decreasing_holders_count, FMPCollector.total_holders.
    rewrite <- !count_if_filter. reflexivity.
  - generalize (Py.of_int
                  (Py.count_if
                     (fun h0 => Py.gt (Py.get (FMPCollector.change h0) 0) 0)
                     (h :: rest)
                   - Py.count_if
                       (fun h0 => Py.lt (Py.get (FMPCollector.change h0) 0) 0)
                       (h :: rest))
                / Py.of_int (Py.len (h :: rest))).
    intro q. compare_floats; repeat split; intros;
      try discriminate; try lra.
Qed.

Lemma institutional_sentiment_fraction_witness :
  exists r,
    FMPCollector.analyze_institutional_sentiment FMPCollector.sample_holders
    = Py.Ok r
    /\ FMPCollector.score r == 1 # 4
    /\ FMPCollector.sentiment r = "neutral"%string.
Proof.
  destruct (institutional_sentiment_fraction FMPCollector.sample_holders)
    as [r [Hr [Hscore [_ [_ Hneutral]]]]].
  - discriminate.
  - exists r. split; [exact Hr|]. split.
    + rewrite Hscore. reflexivity.
    + apply Hneutral. rewrite Hscore. vm_compute. split; discriminate.
Defined.

Lemma count_buys_none (recent : list FMPCollector.Trade) :
  Forall FMPCollector.neither_buy_nor_sell recent ->
  FMPCollector.count_buys recent = 0%Z /\ FMPCollector.count_sells recent = 0%Z.
Proof.
  intro H. split; apply count_if_none;
    (eapply Forall_impl; [|exact H]); intros t [HP HS]; assumption.
Qed.

(** Scoring a non-empty list of recent trades never raises. *)
Lemma score_recent_trades_cases (recent : list FMPCollector.Trade) :
  recent <> [] ->
  FMPCollector.score_recent_trades recent
  = let buys := FMPCollector.count_buys recent in
    let sells := FMPCollector.count_sells recent in
    let score :=
      if (buys + sells >? 0)%Z
      then Py.of_int (buys - sells) / Py.of_int (buys + sells)
      else 0.0 in
    Py.Ok {| FMPCollector.insider_sentiment :=
               if Py.gt score 0.2 then "bullish"%string
               else if Py.lt score (-0.2) then "bearish"%string
               else "neutral"%string;
             FMPCollector.insider_score := score;
             FMPCollector.trade_count := (buys + sells)%Z;
             FMPCollector.tally :=
               Some {| FMPCollector.buys := buys;
                       FMPCollector.sells := sells |} |}.
Proof.
  intro Hne. destruct recent as [|t rest]; [congruence|].
  unfold FMPCollector.score_recent_trades. cbv beta iota zeta.
  rewrite guarded_ratio. reflexivity.
Qed.

(** C10. Whenever some trade is recent, [analyze_insider_sentiment] returns
    a result and raises no division error.  If no recent trade is a
    purchase or a sale, the total is 0, the division is skipped and the
    result is the score 0 with the label neutral; the quotient
    [(buys - sells) / total] is the score only when the total is positive,
    and the total is either 0 or positive. *)
Theorem insider_sentiment_guarded
    (now : Z) (strptime : string -> Py.outcome Z)
    (trades : list FMPCollector.Trade) (days : Z) :
  FMPCollector.recent_trades now strptime trades days <> [] ->
  exists r buys sells,
    FMPCollector.analyze_insider_sentiment now strptime trades days = Py.Ok r
    /\ buys = FMPCollector.count_buys
                (FMPCollector.recent_trades now strptime trades days)
    /\ sells = FMPCollector.count_sells
                 (FMPCollector.recent_trades now strptime trades days)
    /\ FMPCollector.trade_count r = (buys + sells)%Z
    /\ (Forall FMPCollector.neither_buy_nor_sell
          (FMPCollector.recent_trades now strptime trades days) ->
        (buys + sells = 0)%Z
        /\ FMPCollector.insider_score r == 0
        /\ FMPCollector.insider_sentiment r = "neutral"%string)
    /\ ((buys + sells = 0)%Z ->
        FMPCollector.insider_score r == 0
        /\ FMPCollector.insider_sentiment r = "neutral"%string)
    /\ ((0 < buys + sells)%Z ->
        FMPCollector.insider_score r
        == inject_Z (buys - sells) / inject_Z (buys + sells))
    /\ ((buys + sells = 0)%Z \/ (0 < buys + sells)%Z).
Proof.
  intro Hne.
  set (recent := FMPCollector.recent_trades now strptime trades days) in *.
  assert (Htrades : trades <> []).
  { intro Hnil. apply Hne. subst recent. rewrite Hnil. reflexivity. }
  unfold FMPCollector.analyze_insider_sentiment.
  destruct trades as [|t rest]; [congruence|]. cbv beta iota.
  fold recent. rewrite (score_recent_trades_cases recent Hne).
  cbv zeta.
  set (buys := FMPCollector.count_buys recent).
  set (sells := FMPCollector.count_sells recent).
  eexists. exists buys, sells.
  split; [reflexivity|].
  cbn [FMPCollector.trade_count FMPCollector.insider_score
       FMPCollector.insider_sentiment].
  do 3 (split; [reflexivity|]).
  assert (Hzero : (buys + sells = 0)%Z ->
                  (if (buys + sells >? 0)%Z
                   then Py.of_int (buys - sells) / Py.of_int (buys + sells)
                   else 0.0) == 0
                  /\ (if Py.gt
                           (if (buys + sells >? 0)%Z
                            then Py.of_int (buys - sells)
                                 / Py.of_int (buys + sells)
                            else 0.0) 0.2
                      then "bullish"%string
                      else if Py.lt
                                (if (buys + sells >? 0)%Z
                                 then Py.of_int (buys - sells)
                                      / Py.of_int (buys + sells)
                                 else 0.0) (-0.2)
                           then "bearish"%string
                           else "neutral"%string) = "neutral"%string).
  { intro H0. rewrite H0. split; reflexivity. }
  split; [|split; [exact Hzero|split]].
  - intro Hnone. destruct (count_buys_none recent Hnone) as [Hb Hs].
    assert (H0 : (buys + sells = 0)%Z) by (subst buys sells; lia).
    split; [exact H0 | exact (Hzero H0)].
  - intro Hpos. destruct (Z.gtb_spec (buys + sells) 0) as [_|Hle]; [|lia].
    reflexivity.
  - pose proof (count_if_nonneg
                  (fun t0 => Py.contains "P"
                     (Py.get (FMPCollector.transactionType t0) EmptyString))
                  recent) as Hb.
    pose proof (count_if_nonneg
                  (fun t0 => Py.contains "S"
                     (Py.get (FMPCollector.transactionType t0) EmptyString))
                  recent) as Hs.
    fold (FMPCollector.count_buys recent) in Hb.
    fold (FMPCollector.count_sells recent) in Hs.
    subst buys sells. lia.
Qed.

Lemma insider_sentiment_guarded_witness :
  exists r,
    FMPCollector.analyze_insider_sentiment
      FMPCollector.sample_now FMPCollector.sample_strptime
      FMPCollector.sample_awards 90
    = Py.Ok r
    /\ FMPCollector.insider_score r == 0
    /\ FMPCollector.insider_sentiment r = "neutral"%string.
Proof.
  destruct (insider_sentiment_guarded
              FMPCollector.sample_now FMPCollector.sample_strptime
              FMPCollector.sample_awards 90)
    as [r [buys [sells [Hr [_ [_ [_ [Hnone _]]]]]]]].
  - vm_compute. discriminate.
  - exists r. split; [exact Hr|].
    apply Hnone. vm_compute.
    repeat constructor.
Defined.

(** Two purchases and one sale among the recent trades: the trade without a
    date is skipped, and the score is 1/3. *)
Example insider_sentiment_sample :
  exists r,
    FMPCollector.analyze_insider_sentiment
      FMPCollector.sample_now FMPCollector.sample_strptime
      FMPCollector.sample_trades 90
    = Py.Ok r
    /\ FMPCollector.insider_score r == 1 # 3
    /\ FMPCollector.insider_sentiment r = "bullish"%string
    /\ FMPCollector.trade_count r = 3%Z.
Proof. eexists. split; [reflexivity|]. repeat split. Qed.

(** * Further properties *)

(** ** Batches *)

Lemma for_each_ok {A B : Type} (f : A -> Run.t B) (xs : list A) (ys : list B) :
  Run.value (Run.for_each f xs) = Py.Ok ys
  <-> Forall2 (fun x y => Run.value (f x) = Py.Ok y) xs ys.
Proof.
  revert ys. induction xs as [|x rest IH]; intro ys; simpl.
  - split; intro H.
    + injection H as <-. constructor.
    + inversion H. reflexivity.
  - unfold Run.bind at 1. destruct (f x) as [tr [y|e]] eqn:Ex.
    + specialize (IH (tl ys)).
      unfold Run.bind. destruct (Run.for_each f rest) as [tr' [ys'|e']];
        simpl in *; split; intro H.
      * injection H as <-. constructor; [rewrite Ex; reflexivity|].
        apply IH. reflexivity.
      * inversion H as [|x0 y0 l l' Hy Hrest]; subst. rewrite Ex in Hy.
        simpl in Hy. injection Hy as ->. simpl in IH.
        apply IH in Hrest. injection Hrest as ->. reflexivity.
      * discriminate H.
      * inversion H as [|x0 y0 l l' Hy Hrest]; subst. simpl in IH.
        apply IH in Hrest. discriminate Hrest.
    + simpl. split; intro H; [discriminate H|].
      inversion H as [|x0 y0 l l' Hy Hrest]; subst. rewrite Ex in Hy.
      discriminate Hy.
Qed.

Lemma for_each_raise {A B : Type} (f : A -> Run.t B) (xs : list A) :
  (exists e, Run.value (Run.for_each f xs) = Py.Raise e)
  <-> Exists (fun x => exists e, Run.value (f x) = Py.Raise e) xs.
Proof.
  induction xs as [|x rest IH]; simpl.
  - split; [intros [e H]; discriminate H | intro H; inversion H].
  - unfold Run.bind at 1. destruct (f x) as [tr [y|e]] eqn:Ex.
    + unfold Run.bind. destruct (Run.for_each f rest) as [tr' [ys'|e']];
        simpl in *; split.
      * intros [e H]. discriminate H.
      * intro H. inversion H as [x0 l [e He]|x0 l Hrest]; subst.
        -- rewrite Ex in He. discriminate He.
        -- apply IH in Hrest as [e He]. discriminate He.
      * intros _. apply Exists_cons_tl. apply IH. exists e'. reflexivity.
      * intros _. exists e'. reflexivity.
    + simpl. split; intros _.
      * apply Exists_cons_hd. exists e. rewrite Ex. reflexivity.
      * exists e. reflexivity.
Qed.

Lemma Forall2_length_len {A B : Type} (R : A -> B -> Prop)
    (xs : list A) (ys : list B) :
  Forall2 R xs ys -> Py.len ys = Py.len xs.
Proof.
  intro H. unfold Py.len. apply Forall2_length in H. rewrite H. reflexivity.
Qed.

(** Two tests that never hold together select at most every item once. *)
Lemma count_if_disjoint {A : Type} (p q : A -> bool) (xs : list A) :
  (forall x, p x = true -> q x = false) ->
  (Py.count_if p xs + Py.count_if q xs <= Py.len xs)%Z.
Proof.
  intro Hpq. unfold Py.len.
  induction xs as [|x rest IH]; simpl Py.count_if; simpl List.length; [lia|].
  pose proof (Hpq x) as Hx.
  destruct (p x); [rewrite (Hx eq_refl)|destruct (q x)]; lia.
Qed.

Lemma positive_not_negative (s : Q) :
  Py.gt s 0.05 = true -> Py.lt s (-0.05) = false.
Proof.
  intro H. apply gt_iff in H. apply lt_false_iff. lra.
Qed.

(** [sum] keeps the bounds of its items. *)
Lemma fold_sum_bounds (lo hi : Q) (xs : list Q) (acc accl acch : Q) :
  Forall (fun x => lo <= x <= hi) xs ->
  accl <= acc <= acch ->
  accl + inject_Z (Py.len xs) * lo <= fold_left Qplus xs acc
  /\ fold_left Qplus xs acc <= acch + inject_Z (Py.len xs) * hi.
Proof.
  intro H. revert acc accl acch.
  induction H as [|x rest Hx _ IH]; intros acc accl acch Hacc.
  - unfold Py.len. cbn [List.length Z.of_nat fold_left].
    change (inject_Z 0) with 0. lra.
  - simpl fold_left.
    destruct (IH (acc + x) (accl + lo) (acch + hi)) as [IHl IHh]; [lra|].
    assert (Hlen : inject_Z (Py.len (x :: rest))
                   == inject_Z (Py.len rest) + 1).
    { unfold Py.len. simpl List.length. rewrite Nat2Z.inj_succ.
      unfold Z.succ. rewrite inject_Z_plus. reflexivity. }
    rewrite Hlen. split; lra.
Qed.

Lemma sum_bounds (lo hi : Q) (xs : list Q) :
  Forall (fun x => lo <= x <= hi) xs ->
  inject_Z (Py.len xs) * lo <= Py.sum xs <= inject_Z (Py.len xs) * hi.
Proof.
  intro H. unfold Py.sum.
  destruct (fold_sum_bounds lo hi xs 0 0 0 H) as [Hl Hh]; [lra|].
  split; lra.
Qed.

(** The mean of a non-empty list stays within the bounds of its items. *)
Lemma mean_bounds (lo hi : Q) (xs : list Q) :
  (0 < Py.len xs)%Z ->
  Forall (fun x => lo <= x <= hi) xs ->
  lo <= Py.sum xs / Py.of_int (Py.len xs) <= hi.
Proof.
  intros Hlen H. destruct (sum_bounds lo hi xs H) as [Hl Hh].
  assert (Hpos : 0 < Py.of_int (Py.len xs)).
  { unfold Py.of_int. rewrite <- (Zlt_Qlt 0). exact Hlen. }
  unfold Py.of_int in *. split.
  - apply Qle_shift_div_l; [exact Hpos|]. lra.
  - apply Qle_shift_div_r; [exact Hpos|]. lra.
Qed.

(** X1. [analyze_batch] returns a list exactly when [analyze] returns on
    every text, and the list then holds, in order, the result of each text;
    it raises exactly when [analyze] raises on some text. *)
Theorem analyze_batch_pointwise
    (tb : string -> Py.outcome (Q * Q)) (vd : string -> Py.outcome Py.dict)
    (texts : list string) :
  (forall results,
      Run.value (analyze_batch tb vd texts) = Py.Ok results
      <-> Forall2 (fun text r => Run.value (analyze tb vd text) = Py.Ok r)
            texts results)
  /\ ((exists e, Run.value (analyze_batch tb vd texts) = Py.Raise e)
      <-> Exists (fun text => exists e,
                    Run.value (analyze tb vd text) = Py.Raise e) texts).
Proof.
  unfold analyze_batch. split.
  - intro results. apply for_each_ok.
  - apply for_each_raise.
Qed.

(** The body of [get_overall_sentiment] once the batch has been analysed. *)
Lemma get_overall_sentiment_cases
    (tb : string -> Py.outcome (Q * Q)) (vd : string -> Py.outcome Py.dict)
    (texts : list string) (results : list SentimentDict) :
  texts <> [] ->
  Run.value (analyze_batch tb vd texts) = Py.Ok results ->
  let total := Py.len results in
  let positive_count :=
    Py.count_if (fun r => Py.gt (sentiment_score r) 0.05) results in
  let negative_count :=
    Py.count_if (fun r => Py.lt (sentiment_score r) (-0.05)) results in
  (0 < total)%Z
  /\ Run.value (get_overall_sentiment tb vd texts)
     = Py.Ok {| average_sentiment :=
                  Py.sum (map sentiment_score results) / Py.of_int total;
                positive_count := positive_count;
                negative_count := negative_count;
                neutral_count := (total - positive_count - negative_count)%Z;
                total_count := total;
                percentages :=
                  Some {| positive_percentage :=
                            Py.of_int positive_count / Py.of_int total * 100;
                          negative_percentage :=
                            Py.of_int negative_count / Py.of_int total * 100;
                          neutral_percentage :=
                            Py.of_int (total - positive_count - negative_count)
                            / Py.of_int total * 100 |} |}.
Proof.
  intros Hne Hbatch total positive_count negative_count.
  assert (Hlen : (0 < total)%Z).
  { subst total. apply for_each_ok in Hbatch.
    rewrite (Forall2_length_len _ _ _ Hbatch).
    destruct texts as [|t rest]; [congruence|]. apply len_cons_pos. }
  split; [exact Hlen|].
  destruct texts as [|t rest]; [congruence|].
  unfold get_overall_sentiment.
  destruct (analyze_batch tb vd (t :: rest)) as [tr [rs|e]];
    simpl in Hbatch; [|discriminate]. injection Hbatch as ->.
  cbv [Run.bind Run.lift Run.ret Run.value]. fold total.
  rewrite !(div_ok _ (Py.of_int total)) by (apply of_int_pos; exact Hlen).
  reflexivity.
Qed.

Lemma Forall_exists_Forall2 {A B : Type} (R : A -> B -> Prop) (xs : list A) :
  Forall (fun x => exists y, R x y) xs -> exists ys, Forall2 R xs ys.
Proof.
  induction 1 as [|x rest [y Hy] _ [ys IH]].
  - exists []. constructor.
  - exists (y :: ys). constructor; assumption.
Qed.

Lemma Forall2_Forall_exists {A B : Type} (R : A -> B -> Prop)
    (xs : list A) (ys : list B) :
  Forall2 R xs ys -> Forall (fun x => exists y, R x y) xs.
Proof.
  induction 1 as [|x y xs' ys' Hxy _ IH]; constructor;
    [exists y; exact Hxy | exact IH].
Qed.

Lemma Forall2_Forall_right {A B : Type} (R : A -> B -> Prop) (P : B -> Prop)
    (xs : list A) (ys : list B) :
  (forall x y, R x y -> P y) -> Forall2 R xs ys -> Forall P ys.
Proof.
  intros HRP. induction 1 as [|x y xs' ys' Hxy _ IH]; constructor;
    [exact (HRP x y Hxy) | exact IH].
Qed.

Lemma inject_Z_sub (a b : Z) : inject_Z (a - b) == inject_Z a - inject_Z b.
Proof.
  unfold Z.sub. rewrite inject_Z_plus, inject_Z_opp. reflexivity.
Qed.

(** X2. [get_overall_sentiment] returns a summary exactly when [analyze]
    returns on every text: one text on which [analyze] raises makes the
    whole summary raise, and nothing else does (no division can fail). *)
Theorem get_overall_sentiment_returns_iff
    (tb : string -> Py.outcome (Q * Q)) (vd : string -> Py.outcome Py.dict)
    (texts : list string) :
  (exists r, Run.value (get_overall_sentiment tb vd texts) = Py.Ok r)
  <-> Forall (fun text => exists r, Run.value (analyze tb vd text) = Py.Ok r)
        texts.
Proof.
  split.
  - intros [r Hr]. destruct texts as [|t rest]; [constructor|].
    unfold get_overall_sentiment in Hr.
    destruct (analyze_batch tb vd (t :: rest)) as [tr [rs|e]] eqn:Eb.
    + assert (Hb : Run.value (analyze_batch tb vd (t :: rest)) = Py.Ok rs)
        by (rewrite Eb; reflexivity).
      apply for_each_ok in Hb.
      exact (Forall2_Forall_exists _ _ _ Hb).
    + simpl in Hr. discriminate Hr.
  - intro Hall. destruct texts as [|t rest].
    + eexists. reflexivity.
    + apply Forall_exists_Forall2 in Hall as [rs Hrs].
      apply for_each_ok in Hrs.
      assert (Hne : t :: rest <> []) by discriminate.
      destruct (get_overall_sentiment_cases tb vd (t :: rest) rs Hne Hrs)
        as [_ Hvalue].
      eexists. exact Hvalue.
Qed.

Lemma percentage_bounds (c t : Z) :
  (0 < t)%Z -> (0 <= c <= t)%Z ->
  0 <= Py.of_int c / Py.of_int t * 100 <= 100.
Proof.
  intros Ht [Hl Hh]. unfold Py.of_int.
  assert (Hq : 0 < inject_Z t) by (rewrite <- (Zlt_Qlt 0); exact Ht).
  rewrite Zle_Qle in Hl, Hh. change (inject_Z 0) with 0 in Hl.
  assert (Hratio : 0 <= inject_Z c / inject_Z t <= 1).
  { split.
    - apply Qle_shift_div_l; [exact Hq | lra].
    - apply Qle_shift_div_r; [exact Hq | lra]. }
  generalize dependent (inject_Z c / inject_Z t). intros q Hratio.
  split; lra.
Qed.

(** X3. When the batch of a non-empty list of texts is analysed, the summary
    counts every text once: the total is the number of texts, the three
    bucket counts are non-negative and add up to the total, and the three
    percentages are present, each between 0 and 100. *)
Theorem get_overall_sentiment_partition
    (tb : string -> Py.outcome (Q * Q)) (vd : string -> Py.outcome Py.dict)
    (texts : list string) :
  texts <> [] ->
  (exists results, Run.value (analyze_batch tb vd texts) = Py.Ok results) ->
  exists r p,
    Run.value (get_overall_sentiment tb vd texts) = Py.Ok r
    /\ percentages r = Some p
    /\ total_count r = Py.len texts
    /\ (positive_count r + negative_count r + neutral_count r
        = total_count r)%Z
    /\ (0 <= positive_count r)%Z
    /\ (0 <= negative_count r)%Z
    /\ (0 <= neutral_count r)%Z
    /\ 0 <= positive_percentage p <= 100
    /\ 0 <= negative_percentage p <= 100
    /\ 0 <= neutral_percentage p <= 100.
Proof.
  intros Hne [results Hbatch].
  destruct (get_overall_sentiment_cases tb vd texts results Hne Hbatch)
    as [Hlen Hvalue].
  do 2 eexists. split; [exact Hvalue|].
  cbn [percentages total_count positive_count negative_count neutral_count].
  split; [reflexivity|].
  split.
  { apply for_each_ok in Hbatch. exact (Forall2_length_len _ _ _ Hbatch). }
  split; [lia|].
  pose proof (count_if_nonneg
                (fun r => Py.gt (sentiment_score r) 0.05) results) as Hp.
  pose proof (count_if_nonneg
                (fun r => Py.lt (sentiment_score r) (-0.05)) results) as Hn.
  pose proof (count_if_disjoint
                (fun r => Py.gt (sentiment_score r) 0.05)
                (fun r => Py.lt (sentiment_score r) (-0.05)) results
                (fun r => positive_not_negative (sentiment_score r)))
    as Hdisjoint.
  split; [exact Hp|]. split; [exact Hn|]. split; [lia|].
  cbn [positive_percentage negative_percentage neutral_percentage].
  split; [|split]; apply percentage_bounds; try exact Hlen; lia.
Qed.

Lemma get_overall_sentiment_partition_witness :
  exists r p,
    Run.value
      (get_overall_sentiment sample_textblob sample_vader
         ["Great $AAPL earnings!"; "   "; "to the moon"]%string)
    = Py.Ok r
    /\ percentages r = Some p
    /\ total_count r = 3%Z
    /\ (positive_count r + negative_count r + neutral_count r
        = total_count r)%Z
    /\ 0 <= positive_percentage p <= 100.
Proof.
  destruct (get_overall_sentiment_partition sample_textblob sample_vader
              ["Great $AAPL earnings!"; "   "; "to the moon"]%string)
    as [r [p [Hr [Hp [Htotal [Hsum [_ [_ [_ [Hpct _]]]]]]]]]].
  - discriminate.
  - eexists. reflexivity.
  - exists r, p. repeat (split; [assumption|]). exact Hpct.
Defined.

(** ** The blender under failing or well-behaved models *)

(** The result of [analyze] stays within the documented ranges when the
    models do. *)
Lemma analyze_within_ranges
    (tb : string -> Py.outcome (Q * Q)) (vd : string -> Py.outcome Py.dict) :
  (forall text p s,
      tb text = Py.Ok (p, s) -> (-1 <= p <= 1) /\ (0 <= s <= 1)) ->
  (forall text d,
      vd text = Py.Ok d ->
      Py.has_key d "compound" = true /\ Py.has_key d "positive" = true
      /\ Py.has_key d "negative" = true /\ Py.has_key d "neutral" = true) ->
  (forall text d c,
      vd text = Py.Ok d -> Py.getitem d "compound" = Py.Ok c -> -1 <= c <= 1) ->
  forall text, exists r,
    Run.value (analyze tb vd text) = Py.Ok r
    /\ (-1 <= sentiment_score r <= 1).
Proof.
  intros tb_range vd_keys vd_range text.
  destruct (string_dec (clean_text text) EmptyString) as [Hempty|Hne].
  - rewrite (analyze_empty_path tb vd text Hempty).
    exists empty_result. cbn. split; [reflexivity|split; lra].
  - set (cleaned := clean_text text) in *.
    destruct (analyze_with_textblob_total tb cleaned) as [A HA].
    assert (Hp : -1 <= polarity A <= 1).
    { rewrite analyze_with_textblob_cases in HA.
      destruct (tb cleaned) as [[p s]|e] eqn:E; simpl in HA;
        injection HA as <-; cbn [polarity fst].
      - exact (proj1 (tb_range cleaned p s E)).
      - split; lra. }
    destruct (analyze_with_vader_total vd cleaned) as [B HB].
    assert (HBk : exists c pos neg neu,
                    Py.getitem B "compound" = Py.Ok c
                    /\ Py.getitem B "positive" = Py.Ok pos
                    /\ Py.getitem B "negative" = Py.Ok neg
                    /\ Py.getitem B "neutral" = Py.Ok neu
                    /\ -1 <= c <= 1).
    { rewrite analyze_with_vader_cases in HB.
      destruct (vd cleaned) as [d|e] eqn:E; simpl in HB; injection HB as <-.
      - destruct (vd_keys cleaned d E) as [Hc [Hpos [Hneg Hneu]]].
        apply has_key_getitem in Hc as [c Hc].
        apply has_key_getitem in Hpos as [pos Hpos].
        apply has_key_getitem in Hneg as [neg Hneg].
        apply has_key_getitem in Hneu as [neu Hneu].
        exists c, pos, neg, neu.
        repeat (split; [assumption|]).
        exact (vd_range cleaned d c E Hc).
      - exists 0.0, 0.0, 0.0, 1.0.
        repeat (split; [reflexivity|]). lra. }
    destruct HBk as [c [pos [neg [neu [Hc [Hpos [Hneg [Hneu Hcr]]]]]]]].
    eexists. split.
    + exact (analyze_scoring_path tb vd text A B c pos neg neu
               Hne HA HB Hc Hpos Hneg Hneu).
    + cbn [sentiment_score]. split; lra.
Qed.

(** X4. When the two lexical models answer within their documented ranges,
    [get_overall_sentiment] returns for every list of texts, and the mean
    score it reports lies in [-1, 1]. *)
Theorem get_overall_sentiment_mean_in_range
    (tb : string -> Py.outcome (Q * Q)) (vd : string -> Py.outcome Py.dict)
    (texts : list string) :
  (forall text p s,
      tb text = Py.Ok (p, s) -> (-1 <= p <= 1) /\ (0 <= s <= 1)) ->
  (forall text d,
      vd text = Py.Ok d ->
      Py.has_key d "compound" = true /\ Py.has_key d "positive" = true
      /\ Py.has_key d "negative" = true /\ Py.has_key d "neutral" = true) ->
  (forall text d c,
      vd text = Py.Ok d -> Py.getitem d "compound" = Py.Ok c -> -1 <= c <= 1) ->
  exists r,
    Run.value (get_overall_sentiment tb vd texts) = Py.Ok r
    /\ -1 <= average_sentiment r <= 1.
Proof.
  intros tb_range vd_keys vd_range.
  destruct texts as [|t rest].
  - eexists. split; [reflexivity|]. cbn. split; lra.
  - assert (Hall : Forall
                     (fun text => exists r,
                        Run.value (analyze tb vd text) = Py.Ok r
                        /\ -1 <= sentiment_score r <= 1) (t :: rest)).
    { apply Forall_forall. intros text _.
      exact (analyze_within_ranges tb vd tb_range vd_keys vd_range text). }
    apply Forall_exists_Forall2 in Hall as [rs Hrs].
    assert (Hbatch : Run.value (analyze_batch tb vd (t :: rest)) = Py.Ok rs).
    { apply for_each_ok.
      eapply Forall2_impl; [|exact Hrs]. intros text r [H _]. exact H. }
    assert (Hne : t :: rest <> []) by discriminate.
    destruct (get_overall_sentiment_cases tb vd (t :: rest) rs Hne Hbatch)
      as [Hlen Hvalue].
    eexists. split; [exact Hvalue|]. cbn [average_sentiment].
    assert (Hmap : Py.len rs = Py.len (map sentiment_score rs))
      by (unfold Py.len; rewrite length_map; reflexivity).
    rewrite Hmap in *.
    apply mean_bounds.
    + exact Hlen.
    + apply Forall_map.
      apply (Forall2_Forall_right _ _ _ _
               (fun text r (H : Run.value (analyze tb vd text) = Py.Ok r
                                /\ -1 <= sentiment_score r <= 1) => proj2 H)
               Hrs).
Qed.

Lemma get_overall_sentiment_mean_in_range_witness :
  exists r,
    Run.value
      (get_overall_sentiment sample_textblob sample_vader
         ["Great $AAPL earnings!"; "   "]%string)
    = Py.Ok r
    /\ -1 <= average_sentiment r <= 1.
Proof.
  apply (get_overall_sentiment_mean_in_range sample_textblob sample_vader).
  - intros text p s H. injection H as <- <-. split; lra.
  - intros text d H. injection H as <-. repeat split; reflexivity.
  - intros text d c H Hc. injection H as <-. injection Hc as <-. lra.
Defined.

(** X5. On the scoring path each lexical model is invoked exactly once,
    the general-purpose one first, and both receive the cleaned text, not
    the raw one; this holds whether or not [analyze] then returns. *)
Theorem analyze_invokes_models_on_cleaned_text
    (tb : string -> Py.outcome (Q * Q)) (vd : string -> Py.outcome Py.dict)
    (text : string) :
  clean_text text <> EmptyString ->
  filter is_model_call (Run.trace (analyze tb vd text))
  = [CallTextBlob (clean_text text); CallVader (clean_text text)].
Proof.
  intro Hne. apply truthy_true in Hne.
  unfold analyze. rewrite Hne. simpl negb. cbv iota.
  rewrite analyze_with_textblob_cases, analyze_with_vader_cases.
  destruct (tb (clean_text text)) as [blob|e1];
    destruct (vd (clean_text text)) as [d|e2];
    cbv [Run.bind Run.lift Run.ret Run.trace fst];
    repeat match goal with
      | |- context [Py.getitem ?d ?k] => destruct (Py.getitem d k)
      end;
    reflexivity.
Qed.

Lemma analyze_invokes_models_on_cleaned_text_witness :
  filter is_model_call
    (Run.trace
       (analyze sample_textblob failing_vader "see https://t.co/x  now"))
  = [CallTextBlob "see now"; CallVader "see now"].
Proof.
  apply (analyze_invokes_models_on_cleaned_text
           sample_textblob failing_vader "see https://t.co/x  now").
  vm_compute. discriminate.
Defined.

(** X6. [analyze] is fail-soft towards the social-tuned model: when that
    model raises, [analyze] still returns, with a score of 0.4 times the
    polarity of the general-purpose output and the neutral fallback parts.
    When both models raise, the result is the score 0 with subjectivity 0
    and the full confidence 1. *)
Theorem analyze_fail_soft
    (tb : string -> Py.outcome (Q * Q)) (vd : string -> Py.outcome Py.dict)
    (text : string) (e : Py.exn) :
  clean_text text <> EmptyString ->
  vd (clean_text text) = Py.Raise e ->
  exists r A,
    Run.value (analyze tb vd text) = Py.Ok r
    /\ Run.value (analyze_with_textblob tb (clean_text text)) = Py.Ok A
    /\ sentiment_score r == 0.4 * polarity A
    /\ confidence r == 1 - Qabs (polarity A) / 2
    /\ vader_score r == 0
    /\ vader_parts r = Some {| vader_positive := 0.0;
                               vader_negative := 0.0;
                               vader_neutral := 1.0 |}
    /\ ((exists e', tb (clean_text text) = Py.Raise e') ->
        sentiment_score r == 0 /\ confidence r == 1 /\ subjectivity r == 0).
Proof.
  intros Hne Hvd.
  destruct (analyze_with_textblob_total tb (clean_text text)) as [A HA].
  assert (HB : Run.value (analyze_with_vader vd (clean_text text))
               = Py.Ok vader_fallback).
  { rewrite analyze_with_vader_cases, Hvd. reflexivity. }
  exists {| sentiment_score := 0.0 * 0.6 + polarity A * 0.4;
            textblob_score := polarity A;
            vader_score := 0.0;
            confidence := 1 - Qabs (0.0 - polarity A) / 2;
            subjectivity := subjectivity_tb A;
            vader_parts := Some {| vader_positive := 0.0;
                                   vader_negative := 0.0;
                                   vader_neutral := 1.0 |} |}, A.
  split.
  { exact (analyze_scoring_path tb vd text A vader_fallback 0.0 0.0 0.0 1.0
             Hne HA HB eq_refl eq_refl eq_refl eq_refl). }
  split; [exact HA|].
  cbn [sentiment_score confidence vader_score vader_parts subjectivity].
  assert (Habs : Qabs (0.0 - polarity A) == Qabs (polarity A)).
  { setoid_replace (0.0 - polarity A) with (- polarity A) by ring.
    apply Qabs_opp. }
  split; [lra|]. split; [rewrite Habs; reflexivity|].
  split; [reflexivity|]. split; [reflexivity|].
  intros [e' Htb].
  rewrite analyze_with_textblob_cases, Htb in HA. simpl in HA.
  injection HA as <-. cbn [polarity subjectivity_tb].
  split; [reflexivity|]. split; reflexivity.
Qed.

Lemma analyze_fail_soft_witness :
  exists r,
    Run.value (analyze failing_textblob failing_vader "to the moon") = Py.Ok r
    /\ sentiment_score r == 0 /\ confidence r == 1 /\ subjectivity r == 0.
Proof.
  destruct (analyze_fail_soft failing_textblob failing_vader "to the moon"
              Py.LibraryError)
    as [r [A [Hr [_ [_ [_ [_ [_ Hboth]]]]]]]].
  - vm_compute. discriminate.
  - reflexivity.
  - exists r. split; [exact Hr|]. apply Hboth.
    exists Py.LibraryError. reflexivity.
Defined.

(** ** Labels, buckets and colours *)

(** X7. [classify_sentiment] is monotone: a higher score never gets a lower
    label on the scale Very Negative, Negative, Neutral, Positive,
    Very Positive. *)
Theorem classify_sentiment_monotone (s1 s2 : Q) :
  s1 <= s2 ->
  (label_rank (classify_sentiment s1) <= label_rank (classify_sentiment s2))%Z.
Proof.
  intro H. unfold classify_sentiment. compare_floats;
    try (vm_compute; discriminate); exfalso; lra.
Qed.

Lemma classify_sentiment_monotone_witness :
  (label_rank (classify_sentiment (-0.05)) <= label_rank (classify_sentiment 0.05))%Z.
Proof.
  apply (classify_sentiment_monotone (-0.05) 0.05). vm_compute. discriminate.
Defined.

(** X8. The buckets of the batch summary and the labels of the classifier
    differ exactly at the two inner thresholds: a score is counted positive
    exactly when it is labelled Positive or Very Positive and is not 0.05,
    and counted negative exactly when it is labelled Negative or
    Very Negative and is not -0.05; the scores 0.05 and -0.05 land in the
    neutral bucket although they are labelled Positive and Negative. *)
Theorem bucket_against_label (score : Q) :
  (Py.gt score 0.05 = true
   <-> (classify_sentiment score = "Positive"%string
        \/ classify_sentiment score = "Very Positive"%string)
       /\ ~ score == 0.05)
  /\ (Py.lt score (-0.05) = true
      <-> (classify_sentiment score = "Negative"%string
           \/ classify_sentiment score = "Very Negative"%string)
          /\ ~ score == -0.05)
  /\ (Py.gt score 0.05 = false /\ Py.lt score (-0.05) = false
      <-> classify_sentiment score = "Neutral"%string
          \/ score == 0.05 \/ score == -0.05).
Proof.
  rewrite gt_iff, lt_iff, gt_false_iff, lt_false_iff.
  unfold classify_sentiment. compare_floats;
    (split; [|split]); split; intro H;
    repeat match goal with
      | H : _ /\ _ |- _ => destruct H
      | H : _ \/ _ |- _ => destruct H
      end;
    try discriminate; try lra;
    try (split; [|lra]; (left; reflexivity) || (right; reflexivity));
    try (split; lra);
    try (left; reflexivity);
    try (right; left; lra);
    try (right; right; lra).
Qed.

(** X9. The charts label a score exactly as the analyzer does, and the
    colour of the gauge marker follows the buckets of the summary: red
    exactly below -0.05, green exactly above 0.05, grey in between; so a
    red marker always carries a negative label, a green one a positive
    label, and a Neutral label always comes with a grey marker. *)
Theorem gauge_color_against_label (score : Q) :
  SentimentVisualizer._classify_sentiment score = classify_sentiment score
  /\ (SentimentVisualizer.gauge_color score = "#e74c3c"%string
      <-> score < -0.05)
  /\ (SentimentVisualizer.gauge_color score = "#2ecc71"%string
      <-> 0.05 < score)
  /\ (SentimentVisualizer.gauge_color score = "#95a5a6"%string
      <-> -0.05 <= score <= 0.05)
  /\ (SentimentVisualizer.gauge_color score = "#e74c3c"%string ->
      classify_sentiment score = "Negative"%string
      \/ classify_sentiment score = "Very Negative"%string)
  /\ (SentimentVisualizer.gauge_color score = "#2ecc71"%string ->
      classify_sentiment score = "Positive"%string
      \/ classify_sentiment score = "Very Positive"%string)
  /\ (classify_sentiment score = "Neutral"%string ->
      SentimentVisualizer.gauge_color score = "#95a5a6"%string).
Proof.
  split; [reflexivity|].
  unfold SentimentVisualizer.gauge_color, classify_sentiment.
  compare_floats;
    repeat split; intros; try discriminate; try lra;
    try (left; reflexivity); try (right; reflexivity).
Qed.

(** ** The shape of a cleaned text *)

Lemma all_chars_app (p : ascii -> bool) (a b : string) :
  Shape.all_chars p (a ++ b) = Shape.all_chars p a && Shape.all_chars p b.
Proof.
  induction a as [|c a IH]; simpl; [reflexivity|].
  rewrite IH, andb_assoc. reflexivity.
Qed.

Lemma split_from_chars (p : ascii -> bool) (s word : string) :
  Shape.all_chars p word = true ->
  Shape.all_chars p s = true ->
  Forall (fun w => Shape.all_chars p w = true) (Text.split_from word s).
Proof.
  revert word. induction s as [|c rest IH]; intros word Hword Hs; simpl.
  - destruct word; constructor; [exact Hword | constructor].
  - simpl in Hs. apply andb_true_iff in Hs as [Hc Hrest].
    destruct (Text.is_space c).
    + destruct word.
      * apply IH; [reflexivity | exact Hrest].
      * constructor; [exact Hword|]. apply IH; [reflexivity | exact Hrest].
    + apply IH; [|exact Hrest].
      rewrite all_chars_app, Hword. simpl. rewrite Hc. reflexivity.
Qed.

(** The words of [split] are not empty and hold no white space. *)
Lemma split_from_words (s word : string) :
  Shape.all_chars (fun c => negb (Text.is_space c)) word = true ->
  Forall (fun w => w <> EmptyString
                   /\ Shape.all_chars (fun c => negb (Text.is_space c)) w = true)
    (Text.split_from word s).
Proof.
  revert word. induction s as [|c rest IH]; intros word Hword; simpl.
  - destruct word; constructor; [|constructor].
    split; [discriminate | exact Hword].
  - destruct (Text.is_space c) eqn:Ec.
    + destruct word.
      * apply IH. reflexivity.
      * constructor; [split; [discriminate | exact Hword]|].
        apply IH. reflexivity.
    + apply IH. rewrite all_chars_app, Hword. simpl. rewrite Ec. reflexivity.
Qed.

Lemma join_chars (p : ascii -> bool) (sep : string) (words : list string) :
  Shape.all_chars p sep = true ->
  Forall (fun w => Shape.all_chars p w = true) words ->
  Shape.all_chars p (Text.join sep words) = true.
Proof.
  intros Hsep H. unfold Text.join.
  induction H as [|w rest Hw Hrest IH]; [reflexivity|].
  simpl. destruct rest as [|w' rest']; [exact Hw|].
  rewrite !all_chars_app, Hw, Hsep. exact IH.
Qed.

Lemma lstrip_chars (p : ascii -> bool) (s : string) :
  Shape.all_chars p s = true -> Shape.all_chars p (Text.lstrip s) = true.
Proof.
  induction s as [|c rest IH]; simpl; [reflexivity|].
  intro H. destruct (Text.is_space c); [|exact H].
  apply andb_true_iff in H as [_ Hrest]. exact (IH Hrest).
Qed.

Lemma rstrip_chars (p : ascii -> bool) (s : string) :
  Shape.all_chars p s = true -> Shape.all_chars p (Text.rstrip s) = true.
Proof.
  induction s as [|c rest IH]; simpl; [reflexivity|].
  intro H. apply andb_true_iff in H as [Hc Hrest]. specialize (IH Hrest).
  destruct (Text.rstrip rest).
  - destruct (Text.is_space c); simpl; [reflexivity|].
    rewrite Hc. reflexivity.
  - simpl in *. rewrite Hc. exact IH.
Qed.

Lemma sub_hash_chars (s : string) :
  Shape.all_chars (fun c => negb (Ascii.eqb c "#")) (Text.sub_hash s) = true.
Proof.
  induction s as [|c rest IH]; simpl; [reflexivity|].
  destruct (Ascii.eqb c "#") eqn:E; [exact IH|].
  simpl. rewrite E. exact IH.
Qed.

Lemma all_chars_contains (c : ascii) (s : string) :
  Shape.all_chars (fun c' => negb (Ascii.eqb c' c)) s = true ->
  Py.contains c s = false.
Proof.
  induction s as [|c' rest IH]; simpl; [reflexivity|].
  intro H. apply andb_true_iff in H as [Hc Hrest].
  apply negb_true_iff in Hc. rewrite Hc. exact (IH Hrest).
Qed.

(** X10. A cleaned text never holds the character [#]. *)
Theorem clean_text_has_no_hash (text : string) :
  Py.contains "#" (clean_text text) = false.
Proof.
  apply all_chars_contains. unfold clean_text, Text.strip, Text.split.
  apply lstrip_chars, rstrip_chars, join_chars; [reflexivity|].
  apply split_from_chars; [reflexivity|]. apply sub_hash_chars.
Qed.

Lemma tidy_from_word (b : bool) (w : string) :
  w <> EmptyString ->
  Shape.all_chars (fun c => negb (Text.is_space c)) w = true ->
  Shape.tidy_from b w = true.
Proof.
  revert b. induction w as [|c w IH]; intros b Hne H; [congruence|].
  simpl in *. apply andb_true_iff in H as [Hc Hw].
  apply negb_true_iff in Hc. rewrite Hc.
  destruct w as [|c' w']; [reflexivity|].
  apply IH; [discriminate | exact Hw].
Qed.

Lemma tidy_from_word_app (b : bool) (w rest : string) :
  w <> EmptyString ->
  Shape.all_chars (fun c => negb (Text.is_space c)) w = true ->
  Shape.tidy_from b (w ++ rest) = Shape.tidy_from false rest.
Proof.
  revert b. induction w as [|c w IH]; intros b Hne H; [congruence|].
  simpl in *. apply andb_true_iff in H as [Hc Hw].
  apply negb_true_iff in Hc. rewrite Hc.
  destruct w as [|c' w']; [reflexivity|].
  apply IH; [discriminate | exact Hw].
Qed.

Lemma tidy_from_join (words : list string) :
  words <> [] ->
  Forall (fun w => w <> EmptyString
                   /\ Shape.all_chars (fun c => negb (Text.is_space c)) w = true)
    words ->
  Shape.tidy_from true (Text.join " " words) = true.
Proof.
  intros Hne H. unfold Text.join.
  induction H as [|w rest [Hw1 Hw2] Hrest IH]; [congruence|].
  simpl. destruct rest as [|w' rest'].
  - exact (tidy_from_word true w Hw1 Hw2).
  - rewrite (tidy_from_word_app true w _ Hw1 Hw2).
    change (Shape.tidy_from true (String.concat " " (w' :: rest')) = true).
    apply IH. discriminate.
Qed.

Lemma tidy_from_lstrip (s : string) :
  Shape.tidy_from true s = true -> Text.lstrip s = s.
Proof.
  destruct s as [|c rest]; simpl; [reflexivity|].
  destruct (Text.is_space c); [|reflexivity].
  rewrite andb_false_r. discriminate.
Qed.

Lemma tidy_from_rstrip (b : bool) (s : string) :
  Shape.tidy_from b s = true -> Text.rstrip s = s.
Proof.
  revert b. induction s as [|c rest IH]; intros b H; simpl in *; [reflexivity|].
  destruct (Text.is_space c) eqn:Ec.
  - apply andb_true_iff in H as [_ Hrest].
    rewrite (IH true Hrest).
    destruct rest; [simpl in Hrest; discriminate | reflexivity].
  - rewrite (IH false H). destruct rest; reflexivity.
Qed.

(** X11. A cleaned text is tidy: it neither starts nor ends with white
    space, and its only white space is single spaces between words (no tab,
    no line break, no run of spaces). *)
Theorem clean_text_is_tidy (text : string) :
  Shape.tidy (clean_text text) = true.
Proof.
  unfold clean_text, Text.split.
  set (s := Text.sub_hash (Text.sub_mentions false (Text.sub_urls false text))).
  pose proof (split_from_words s EmptyString eq_refl) as Hwords.
  destruct (Text.split_from EmptyString s) as [|w rest] eqn:E.
  - reflexivity.
  - assert (Hne : w :: rest <> []) by discriminate.
    pose proof (tidy_from_join (w :: rest) Hne Hwords) as Htidy.
    unfold Text.strip.
    rewrite (tidy_from_rstrip true _ Htidy), (tidy_from_lstrip _ Htidy).
    unfold Shape.tidy.
    destruct (Text.join " " (w :: rest)); [reflexivity | exact Htidy].
Qed.

(** ** The readings of the indicators *)

(** X12. The volatility reading is monotone: a higher level of the index
    never gives a higher score, and the score is one of 0.5, 0, -0.4 and
    -0.8, the last from a level of 35 on. *)
Theorem vix_reading_monotone (v1 v2 : Q) :
  v1 <= v2 ->
  MarketIndicators.score (Readings.vix_reading v2)
  <= MarketIndicators.score (Readings.vix_reading v1)
  /\ -0.8 <= MarketIndicators.score (Readings.vix_reading v1) <= 0.5
  /\ (MarketIndicators.score (Readings.vix_reading v1) == -0.8 <-> 35 <= v1).
Proof.
  intro H. unfold Readings.vix_reading. compare_floats;
    cbn [MarketIndicators.score];
    (split; [|split; [|split]]); intros; try lra;
    try (exfalso; lra);
    try (vm_compute; discriminate);
    try match goal with
      | H : _ == _ |- _ => vm_compute in H; discriminate H
      end.
Qed.

Lemma vix_reading_monotone_witness :
  MarketIndicators.score (Readings.vix_reading 40)
  <= MarketIndicators.score (Readings.vix_reading 12).
Proof.
  apply (vix_reading_monotone 12 40). vm_compute. discriminate.
Defined.

(** X13. The breadth line is never read as neutral: the reading exists as
    soon as one exchange has data, its score is positive exactly when the
    average change is positive and negative otherwise, so a flat average
    reads slightly bearish.  An exchange without data counts as a change of
    0: with one exchange alone, the reading is bullish only above 10. *)
Theorem advance_decline_reading_sign (nyse_ad_pct nasdaq_ad_pct : option Q) :
  (Readings.advance_decline_reading nyse_ad_pct nasdaq_ad_pct = None
   <-> nyse_ad_pct = None /\ nasdaq_ad_pct = None)
  /\ (forall d,
        Readings.advance_decline_reading nyse_ad_pct nasdaq_ad_pct = Some d ->
        (0 < MarketIndicators.score d
         <-> 0 < Readings.avg_pct nyse_ad_pct nasdaq_ad_pct)
        /\ (MarketIndicators.score d < 0
            <-> Readings.avg_pct nyse_ad_pct nasdaq_ad_pct <= 0)
        /\ (Readings.avg_pct nyse_ad_pct nasdaq_ad_pct == 0 ->
            MarketIndicators.indicator_sentiment d = "slightly_bearish"%string)
        /\ (forall p,
              nyse_ad_pct = Some p /\ nasdaq_ad_pct = None
              \/ nyse_ad_pct = None /\ nasdaq_ad_pct = Some p ->
              (MarketIndicators.indicator_sentiment d = "bullish"%string
               <-> 10 < p))).
Proof.
  split.
  - destruct nyse_ad_pct, nasdaq_ad_pct; simpl; split;
      try discriminate; try (intros [H1 H2]; discriminate); auto.
  - intros d Hd.
    assert (Hd' : d = Readings.advance_decline_table
                        (Readings.avg_pct nyse_ad_pct nasdaq_ad_pct)).
    { destruct nyse_ad_pct, nasdaq_ad_pct; simpl in Hd;
        try discriminate; injection Hd as <-; reflexivity. }
    subst d. clear Hd.
    assert (Hsingle : forall p,
               nyse_ad_pct = Some p /\ nasdaq_ad_pct = None
               \/ nyse_ad_pct = None /\ nasdaq_ad_pct = Some p ->
               Readings.avg_pct nyse_ad_pct nasdaq_ad_pct == p * (1 # 2)).
    { intros p [[-> ->]|[-> ->]]; unfold Readings.avg_pct; simpl;
        rewrite halve; ring. }
    generalize dependent (Readings.avg_pct nyse_ad_pct nasdaq_ad_pct).
    intros a Hsingle. unfold Readings.advance_decline_table.
    compare_floats;
      cbn [MarketIndicators.score MarketIndicators.indicator_sentiment];
      (split; [|split; [|split]]);
      try (split; intro; lra);
      try (intro; reflexivity);
      try (intro Hz; exfalso; lra);
      intros p Hp; specialize (Hsingle p Hp);
      split; intro Hx; try discriminate Hx; try reflexivity;
      first [lra | exfalso; lra].
Qed.

Lemma put_call_reading_total (puts_volume calls_volume : Q) :
  exists ratio,
    Readings.put_call_reading puts_volume calls_volume
    = Py.Ok (Readings.put_call_table ratio).
Proof.
  unfold Readings.put_call_reading, Readings.put_call_ratio_of.
  destruct (Py.gt calls_volume 0) eqn:E.
  - apply gt_iff in E.
    rewrite div_ok by (intro Hz; rewrite Hz in E; apply (Qlt_irrefl 0 E)).
    eexists. reflexivity.
  - eexists. reflexivity.
Qed.

(** X14. The put/call estimate never raises.  Without call volume the ratio
    is taken as 0 and the reading is bullish with score 0.4 whatever the put
    volume; with call volume the table is applied to puts over calls, where
    a ratio above 1.5 reads as the positive score 0.3 while a ratio in
    (1, 1.5] reads as -0.4. *)
Theorem put_call_reading_cases (puts_volume calls_volume : Q) :
  exists d,
    Readings.put_call_reading puts_volume calls_volume = Py.Ok d
    /\ (calls_volume <= 0 ->
        d = {| MarketIndicators.indicator_sentiment := "bullish";
               MarketIndicators.score := 0.4 |})
    /\ (0 < calls_volume ->
        d = Readings.put_call_table (puts_volume / calls_volume)
        /\ (1.5 * calls_volume < puts_volume ->
            MarketIndicators.score d == 0.3)
        /\ (calls_volume < puts_volume <= 1.5 * calls_volume ->
            MarketIndicators.score d == -0.4)).
Proof.
  unfold Readings.put_call_reading, Readings.put_call_ratio_of.
  destruct (Py.gt calls_volume 0) eqn:E.
  - apply gt_iff in E.
    rewrite div_ok by (intro Hz; rewrite Hz in E; apply (Qlt_irrefl 0 E)).
    cbn [Py.bind]. eexists. split; [reflexivity|].
    split; [intro Hle; exfalso; lra|].
    intros _. split; [reflexivity|].
    assert (Hgt : forall k, k * calls_volume < puts_volume <->
                            k < puts_volume / calls_volume).
    { intro k. split; intro H.
      - apply Qlt_shift_div_l; assumption.
      - apply (Qmult_lt_r _ _ calls_volume E) in H.
        setoid_replace (puts_volume / calls_volume * calls_volume)
          with puts_volume in H by (field; intro Hz; lra).
        exact H. }
    assert (Hle : puts_volume <= 1.5 * calls_volume <->
                  puts_volume / calls_volume <= 1.5).
    { split; intro H.
      - apply Qle_shift_div_r; assumption.
      - apply (Qmult_le_r _ _ calls_volume E) in H.
        setoid_replace (puts_volume / calls_volume * calls_volume)
          with puts_volume in H by (field; intro Hz; lra).
        exact H. }
    generalize dependent (puts_volume / calls_volume). intros ratio Hgt Hle.
    unfold Readings.put_call_table. split.
    + intro H. apply (Hgt 1.5) in H.
      compare_floats; cbn [MarketIndicators.score]; try reflexivity;
        exfalso; lra.
    + intros [H1 H2]. apply Hle in H2.
      assert (H1' : 1 < ratio) by (apply Hgt; lra).
      compare_floats; cbn [MarketIndicators.score]; try reflexivity;
        exfalso; lra.
  - apply gt_false_iff in E. cbn [Py.bind]. eexists. split; [reflexivity|].
    split; [intros _; reflexivity | intro H; exfalso; lra].
Qed.

(** X15. The fear and greed score is monotone in the index value and stays
    within [-0.8, 0.8]; it is 0 exactly for the values 45 to 54. *)
Theorem fear_greed_score_monotone (v1 v2 : Z) :
  (v1 <= v2)%Z ->
  Readings.fear_greed_score v1 <= Readings.fear_greed_score v2
  /\ -0.8 <= Readings.fear_greed_score v1 <= 0.8
  /\ (Readings.fear_greed_score v1 == 0 <-> (45 <= v1 < 55)%Z).
Proof.
  intro H. unfold Readings.fear_greed_score.
  repeat match goal with
    | |- context [(?a <? ?b)%Z] => destruct (Z.ltb_spec a b)
    end;
    (split; [|split; [|split]]); intros; try lia; try lra;
    try (vm_compute; discriminate);
    try reflexivity;
    try match goal with
      | H : _ == _ |- _ => vm_compute in H; discriminate H
      end.
Qed.

Lemma fear_greed_score_monotone_witness :
  Readings.fear_greed_score 20 <= Readings.fear_greed_score 80.
Proof.
  apply (fear_greed_score_monotone 20 80). lia.
Defined.

(** X16. Without volatility data the market breadth reads "unknown" with
    score 0 whatever the return.  With it, a rising fund always reads
    positive (0.6, or 0.1 when the index is above 20), and the reading is
    negative exactly when the return is below -5. *)
Theorem market_breadth_reading_cases (spy_return : Q) (vix_level : option Q) :
  (vix_level = None ->
   Readings.market_breadth_reading spy_return vix_level
   = {| MarketIndicators.indicator_sentiment := "unknown";
        MarketIndicators.score := 0.0 |})
  /\ (forall current_vix,
        vix_level = Some current_vix ->
        (0 < spy_return ->
         0 < MarketIndicators.score
               (Readings.market_breadth_reading spy_return vix_level))
        /\ (0 < spy_return /\ 20 < current_vix <->
            MarketIndicators.indicator_sentiment
              (Readings.market_breadth_reading spy_return vix_level)
            = "narrow_leadership"%string)
        /\ (MarketIndicators.score
              (Readings.market_breadth_reading spy_return vix_level) < 0
            <-> spy_return < -5)).
Proof.
  split.
  - intros ->. reflexivity.
  - intros current_vix ->. unfold Readings.market_breadth_reading.
    compare_floats;
      cbn [andb MarketIndicators.score MarketIndicators.indicator_sentiment];
      (split; [|split]);
      try (intro; lra);
      try (split; intro Hx; try discriminate Hx; try reflexivity;
           try (split; lra); try lra;
           try (destruct Hx; exfalso; lra)).
Qed.

(** ** The composite of the readings *)

(** A mean under positive weights lies between bounds of its items. *)
Lemma quotient_between (lo hi num den : Q) :
  0 < den -> lo * den <= num <= hi * den -> lo <= num / den <= hi.
Proof.
  intros Hden [Hl Hh]. split.
  - apply Qle_shift_div_l; assumption.
  - apply Qle_shift_div_r; assumption.
Qed.

Lemma composite_between (lo hi : Q)
    (vix ad_line pc_ratio breadth : option MarketIndicators.Indicator) :
  Readings.scores_within lo hi [vix; ad_line; pc_ratio; breadth] ->
  forall r,
    Run.value
      (MarketIndicators.get_overall_market_sentiment vix ad_line pc_ratio breadth)
    = Py.Ok (Some r) ->
    lo <= MarketIndicators.composite_score r <= hi.
Proof.
  intros Hin r Hr.
  inversion Hin as [|? ? H1 Hin1]; subst.
  inversion Hin1 as [|? ? H2 Hin2]; subst.
  inversion Hin2 as [|? ? H3 Hin3]; subst.
  inversion Hin3 as [|? ? H4 _]; subst.
  destruct vix as [[? s1]|], ad_line as [[? s2]|], pc_ratio as [[? s3]|],
    breadth as [[? s4]|];
    cbn in Hr; try discriminate Hr;
    injection Hr as <-; cbn [MarketIndicators.composite_score];
    cbn [MarketIndicators.score] in *;
    (apply quotient_between; [reflexivity|]);
    split; lra.
Qed.

(** With a sub-score present the composite is a record, and the function
    never raises. *)
Lemma composite_exists
    (vix ad_line pc_ratio breadth : option MarketIndicators.Indicator) :
  (exists r,
      Run.value
        (MarketIndicators.get_overall_market_sentiment
           vix ad_line pc_ratio breadth) = Py.Ok (Some r))
  \/ (vix = None /\ ad_line = None /\ pc_ratio = None /\ breadth = None
      /\ Run.value
           (MarketIndicators.get_overall_market_sentiment
              vix ad_line pc_ratio breadth) = Py.Ok None).
Proof.
  destruct vix as [[? s1]|], ad_line as [[? s2]|], pc_ratio as [[? s3]|],
    breadth as [[? s4]|];
    try (left; eexists; reflexivity).
  right. repeat split; reflexivity.
Qed.

Lemma vix_reading_range (v : Q) :
  -0.8 <= MarketIndicators.score (Readings.vix_reading v) <= 0.5.
Proof.
  unfold Readings.vix_reading. compare_floats; cbn; split; lra.
Qed.

Lemma advance_decline_table_range (a : Q) :
  -0.6 <= MarketIndicators.score (Readings.advance_decline_table a) <= 0.6.
Proof.
  unfold Readings.advance_decline_table. compare_floats; cbn; split; lra.
Qed.

Lemma put_call_table_range (ratio : Q) :
  -0.4 <= MarketIndicators.score (Readings.put_call_table ratio) <= 0.4.
Proof.
  unfold Readings.put_call_table. compare_floats; cbn; split; lra.
Qed.

Lemma market_breadth_reading_range (ret : Q) (vix_level : option Q) :
  -0.6 <= MarketIndicators.score (Readings.market_breadth_reading ret vix_level)
  <= 0.6.
Proof.
  unfold Readings.market_breadth_reading. destruct vix_level as [v|];
    compare_floats; cbn; split; lra.
Qed.

(** X18. Fed by the tables of its four getters, the composite never leaves
    [-0.8, 0.6], whatever the raw readings: it never raises, and it is either
    the empty [dict] (no getter had data) or a record with a composite score
    in that interval. *)
Theorem overall_market_sentiment_range
    (current_vix : option Q) (nyse_ad_pct nasdaq_ad_pct : option Q)
    (volumes : option (Q * Q)) (spy : option (Q * option Q)) :
  (current_vix = None /\ nyse_ad_pct = None /\ nasdaq_ad_pct = None
   /\ volumes = None /\ spy = None
   /\ Run.value
        (Readings.overall_market_sentiment
           current_vix nyse_ad_pct nasdaq_ad_pct volumes spy) = Py.Ok None)
  \/ (exists r,
        Run.value
          (Readings.overall_market_sentiment
             current_vix nyse_ad_pct nasdaq_ad_pct volumes spy)
        = Py.Ok (Some r)
        /\ -0.8 <= MarketIndicators.composite_score r <= 0.6).
Proof.
  unfold Readings.overall_market_sentiment.
  set (a1 := option_map Readings.vix_reading current_vix).
  set (a2 := Readings.advance_decline_reading nyse_ad_pct nasdaq_ad_pct).
  set (a3 := match volumes with
             | Some (puts_volume, calls_volume) =>
                 Readings.as_argument
                   (Readings.put_call_reading puts_volume calls_volume)
             | None => None
             end).
  set (a4 := option_map
               (fun s => Readings.market_breadth_reading (fst s) (snd s)) spy).
  assert (Hin : Readings.scores_within (-0.8) 0.6 [a1; a2; a3; a4]).
  { repeat constructor.
    - subst a1. destruct current_vix as [v|]; simpl; [|exact I].
      pose proof (vix_reading_range v). lra.
    - subst a2. destruct nyse_ad_pct, nasdaq_ad_pct; simpl; try exact I;
        match goal with
        | |- context [Readings.advance_decline_table ?a] =>
            pose proof (advance_decline_table_range a)
        end; lra.
    - subst a3. destruct volumes as [[p c]|]; [|exact I].
      destruct (put_call_reading_total p c) as [ratio ->]. simpl.
      pose proof (put_call_table_range ratio). lra.
    - subst a4. destruct spy as [[ret vl]|]; simpl; [|exact I].
      pose proof (market_breadth_reading_range ret vl). lra. }
  destruct (composite_exists a1 a2 a3 a4) as [[r Hr]|[H1 [H2 [H3 [H4 H5]]]]].
  - right. exists r. split; [exact Hr|].
    exact (composite_between (-0.8) 0.6 a1 a2 a3 a4 Hin r Hr).
  - left. subst a1 a2 a3 a4.
    destruct current_vix; [discriminate H1|].
    destruct nyse_ad_pct; [discriminate H2|].
    destruct nasdaq_ad_pct; [discriminate H2|].
    destruct spy; [discriminate H4|].
    destruct volumes as [[p c]|].
    + destruct (put_call_reading_total p c) as [ratio Hp].
      rewrite Hp in H3. discriminate H3.
    + repeat split.
Qed.

(** X19. The label of the composite follows its own table, coarser than
    the classifier of the analyzer: bullish exactly above 0.4, slightly
    bullish on (0.1, 0.4], neutral on (-0.1, 0.1], slightly bearish on
    (-0.4, -0.1], bearish from -0.4 down. *)
Theorem market_sentiment_label
    (vix ad_line pc_ratio breadth : option MarketIndicators.Indicator)
    (r : MarketIndicators.CompositeDict) :
  Run.value
    (MarketIndicators.get_overall_market_sentiment vix ad_line pc_ratio breadth)
  = Py.Ok (Some r) ->
  (MarketIndicators.sentiment r = "bullish"%string
   <-> 0.4 < MarketIndicators.composite_score r)
  /\ (MarketIndicators.sentiment r = "slightly_bullish"%string
      <-> 0.1 < MarketIndicators.composite_score r <= 0.4)
  /\ (MarketIndicators.sentiment r = "neutral"%string
      <-> -0.1 < MarketIndicators.composite_score r <= 0.1)
  /\ (MarketIndicators.sentiment r = "slightly_bearish"%string
      <-> -0.4 < MarketIndicators.composite_score r <= -0.1)
  /\ (MarketIndicators.sentiment r = "bearish"%string
      <-> MarketIndicators.composite_score r <= -0.4).
Proof.
  intro Hr.
  assert (Hlabel : MarketIndicators.sentiment r
                   = MarketIndicators.classify_composite
                       (MarketIndicators.composite_score r)).
  { destruct vix as [[? s1]|], ad_line as [[? s2]|], pc_ratio as [[? s3]|],
      breadth as [[? s4]|];
      cbn in Hr; try discriminate Hr; injection Hr as <-; reflexivity. }
  rewrite Hlabel. generalize (MarketIndicators.composite_score r). intro q.
  unfold MarketIndicators.classify_composite. compare_floats;
    repeat split; intros; try discriminate; try lra.
Qed.

Lemma market_sentiment_label_witness :
  exists r,
    Run.value
      (MarketIndicators.get_overall_market_sentiment
         MarketIndicators.sample_vix MarketIndicators.sample_ad_line None None)
    = Py.Ok (Some r)
    /\ MarketIndicators.sentiment r = "neutral"%string.
Proof.
  eexists. split; [reflexivity|].
  apply (market_sentiment_label
           MarketIndicators.sample_vix MarketIndicators.sample_ad_line
           None None _ eq_refl).
  vm_compute. split; [reflexivity | discriminate].
Defined.

(** ** Holder, insider and filing scores *)

Lemma ratio_bounds (n t : Z) :
  (0 < t)%Z -> (- t <= n <= t)%Z ->
  -1 <= Py.of_int n / Py.of_int t <= 1.
Proof.
  intros Ht [Hl Hh]. unfold Py.of_int.
  apply quotient_between.
  - rewrite <- (Zlt_Qlt 0). exact Ht.
  - rewrite Zle_Qle in Hl, Hh. rewrite inject_Z_opp in Hl. split; lra.
Qed.

Lemma ratio_positive (n t : Z) :
  (0 < t)%Z -> 0 < Py.of_int n / Py.of_int t -> (0 < n)%Z.
Proof.
  intros Ht H. destruct (Z.lt_ge_cases 0 n) as [Hn|Hn]; [exact Hn|].
  exfalso. unfold Py.of_int in H.
  assert (Hq : inject_Z n / inject_Z t <= 0).
  { apply Qle_shift_div_r.
    - rewrite <- (Zlt_Qlt 0). exact Ht.
    - rewrite Zle_Qle in Hn. change (inject_Z 0) with 0 in Hn. lra. }
  lra.
Qed.

Lemma ratio_negative (n t : Z) :
  (0 < t)%Z -> Py.of_int n / Py.of_int t < 0 -> (n < 0)%Z.
Proof.
  intros Ht H. destruct (Z.lt_ge_cases n 0) as [Hn|Hn]; [exact Hn|].
  exfalso. unfold Py.of_int in H.
  assert (Hq : 0 <= inject_Z n / inject_Z t).
  { apply Qle_shift_div_l.
    - rewrite <- (Zlt_Qlt 0). exact Ht.
    - rewrite Zle_Qle in Hn. change (inject_Z 0) with 0 in Hn. lra. }
  lra.
Qed.

Lemma grew_not_shrank (c : Q) : Py.gt c 0 = true -> Py.lt c 0 = false.
Proof.
  intro H. apply gt_iff in H. apply lt_false_iff. lra.
Qed.

(** X20. [analyze_institutional_sentiment] always returns.  Its label is
    "unknown" exactly for the empty list; otherwise the holders that grew
    and those that shrank are disjoint, so the score lies in [-1, 1], a
    bullish label means that more holders grew than shrank, and a bearish
    one the converse. *)
Theorem institutional_sentiment_bounded (holders : list FMPCollector.Holder) :
  exists r,
    FMPCollector.analyze_institutional_sentiment holders = Py.Ok r
    /\ -1 <= FMPCollector.score r <= 1
    /\ FMPCollector.holder_count r = Py.len holders
    /\ (FMPCollector.sentiment r = "unknown"%string <-> holders = [])
    /\ (FMPCollector.increasing_holders_count holders
        + FMPCollector.decreasing_holders_count holders
        <= FMPCollector.total_holders holders)%Z
    /\ (FMPCollector.sentiment r = "bullish"%string ->
        (FMPCollector.decreasing_holders_count holders
         < FMPCollector.increasing_holders_count holders)%Z)
    /\ (FMPCollector.sentiment r = "bearish"%string ->
        (FMPCollector.increasing_holders_count holders
         < FMPCollector.decreasing_holders_count holders)%Z).
Proof.
  unfold FMPCollector.increasing_holders_count,
    FMPCollector.decreasing_holders_count, FMPCollector.total_holders.
  rewrite <- !count_if_filter.
  pose proof (count_if_disjoint
                (fun h => Py.gt (Py.get (FMPCollector.change h) 0) 0)
                (fun h => Py.lt (Py.get (FMPCollector.change h) 0) 0)
                holders
                (fun h => grew_not_shrank (Py.get (FMPCollector.change h) 0)))
    as Hdisjoint.
  pose proof (count_if_nonneg
                (fun h => Py.gt (Py.get (FMPCollector.change h) 0) 0) holders)
    as Hinc.
  pose proof (count_if_nonneg
                (fun h => Py.lt (Py.get (FMPCollector.change h) 0) 0) holders)
    as Hdec.
  destruct holders as [|h rest].
  - eexists. split; [reflexivity|]. cbn.
    split; [split; lra|]. split; [reflexivity|].
    split; [split; reflexivity|]. split; [lia|].
    split; intro H; discriminate H.
  - unfold FMPCollector.analyze_institutional_sentiment.
    cbv beta iota. rewrite guarded_ratio.
    pose proof (len_cons_pos h rest) as Hlen.
    destruct (Z.gtb_spec (Py.len (h :: rest)) 0) as [_|Hle]; [|lia].
    cbn [Py.bind]. eexists. split; [reflexivity|].
    cbn [FMPCollector.score FMPCollector.sentiment FMPCollector.holder_count].
    set (inc := Py.count_if
                  (fun h0 => Py.gt (Py.get (FMPCollector.change h0) 0) 0)
                  (h :: rest)) in *.
    set (dec := Py.count_if
                  (fun h0 => Py.lt (Py.get (FMPCollector.change h0) 0) 0)
                  (h :: rest)) in *.
    set (total := Py.len (h :: rest)) in *.
    pose proof (ratio_bounds (inc - dec) total Hlen ltac:(lia)) as Hbounds.
    pose proof (ratio_positive (inc - dec) total Hlen) as Hpos.
    pose proof (ratio_negative (inc - dec) total Hlen) as Hneg.
    split; [exact Hbounds|]. split; [reflexivity|].
    split; [|split; [exact Hdisjoint|]].
    + split; [|discriminate].
      compare_floats; intro H; discriminate H.
    + generalize dependent (Py.of_int (inc - dec) / Py.of_int total).
      intros q Hbounds Hpos Hneg. compare_floats; split; intro H;
        try discriminate H.
      * assert (0 < inc - dec)%Z by (apply Hpos; lra). lia.
      * assert (inc - dec < 0)%Z by (apply Hneg; lra). lia.
Qed.

(** X21. Whenever the cutoff date of the window exists (the window does
    not reach beyond the range of [datetime]), [analyze_insider_sentiment]
    returns.  Its label is "unknown" exactly for the empty list of trades;
    the score lies in [-1, 1]; a bullish label means more buys than sells
    among the recent trades, and a bearish one more sells than buys. *)
Theorem insider_sentiment_bounded
    (now : Z) (strptime : string -> Py.outcome Z)
    (trades : list FMPCollector.Trade) (days : Z) :
  Datetime.cutoff_representable now days ->
  exists r,
    FMPCollector.analyze_insider_sentiment now strptime trades days = Py.Ok r
    /\ -1 <= FMPCollector.insider_score r <= 1
    /\ (FMPCollector.insider_sentiment r = "unknown"%string <-> trades = [])
    /\ (FMPCollector.insider_sentiment r = "bullish"%string ->
        (FMPCollector.count_sells
           (FMPCollector.recent_trades now strptime trades days)
         < FMPCollector.count_buys
             (FMPCollector.recent_trades now strptime trades days))%Z)
    /\ (FMPCollector.insider_sentiment r = "bearish"%string ->
        (FMPCollector.count_buys
           (FMPCollector.recent_trades now strptime trades days)
         < FMPCollector.count_sells
             (FMPCollector.recent_trades now strptime trades days))%Z).
Proof.
  intros _. destruct trades as [|t rest].
  - eexists. split; [reflexivity|]. cbn.
    split; [split; lra|]. split; [split; reflexivity|].
    split; intro H; discriminate H.
  - unfold FMPCollector.analyze_insider_sentiment. cbv beta iota.
    set (recent := FMPCollector.recent_trades now strptime (t :: rest) days).
    destruct recent as [|t' rest'] eqn:Erecent.
    + eexists. split; [reflexivity|]. cbn.
      split; [split; lra|]. split; [split; discriminate|].
      split; intro H; discriminate H.
    + rewrite <- Erecent.
      assert (Hne : recent <> []) by (rewrite Erecent; discriminate).
      rewrite (score_recent_trades_cases recent Hne). cbv zeta.
      pose proof (count_if_nonneg
                    (fun t0 => Py.contains "P"
                       (Py.get (FMPCollector.transactionType t0) EmptyString))
                    recent) as Hb.
      pose proof (count_if_nonneg
                    (fun t0 => Py.contains "S"
                       (Py.get (FMPCollector.transactionType t0) EmptyString))
                    recent) as Hs.
      fold (FMPCollector.count_buys recent) in Hb.
      fold (FMPCollector.count_sells recent) in Hs.
      set (buys := FMPCollector.count_buys recent) in *.
      set (sells := FMPCollector.count_sells recent) in *.
      eexists. split; [reflexivity|].
      cbn [FMPCollector.insider_score FMPCollector.insider_sentiment].
      destruct (Z.gtb_spec (buys + sells) 0) as [Hpos|Hzero].
      * pose proof (ratio_bounds (buys - sells) (buys + sells) Hpos
                      ltac:(lia)) as Hbounds.
        pose proof (ratio_positive (buys - sells) (buys + sells) Hpos) as Hp.
        pose proof (ratio_negative (buys - sells) (buys + sells) Hpos) as Hn.
        split; [exact Hbounds|].
        generalize dependent
          (Py.of_int (buys - sells) / Py.of_int (buys + sells)).
        intros q Hbounds Hp Hn.
        split; [split; [|discriminate];
                compare_floats; intro H; discriminate H|].
        compare_floats; split; intro H; try discriminate H.
        -- assert (0 < buys - sells)%Z by (apply Hp; lra). lia.
        -- assert (buys - sells < 0)%Z by (apply Hn; lra). lia.
      * split; [split; lra|].
        split; [split; [intro H; discriminate H | discriminate]|].
        split; intro H; discriminate H.
Qed.

Lemma insider_sentiment_bounded_witness :
  exists r,
    FMPCollector.analyze_insider_sentiment
      FMPCollector.sample_now FMPCollector.sample_strptime
      FMPCollector.sample_trades 90
    = Py.Ok r
    /\ -1 <= FMPCollector.insider_score r <= 1.
Proof.
  destruct (insider_sentiment_bounded
              FMPCollector.sample_now FMPCollector.sample_strptime
              FMPCollector.sample_trades 90) as [r [Hr [Hscore _]]].
  - unfold Datetime.cutoff_representable, Datetime.representable.
    vm_compute. split; discriminate.
  - exists r. split; [exact Hr | exact Hscore].
Defined.

Lemma count_if_both_neither {A : Type} (p q : A -> bool) (xs : list A) :
  (Py.count_if p xs + Py.count_if q xs
   = Py.len xs + Py.count_if (fun x => p x && q x) xs
     - Py.count_if (fun x => negb (p x) && negb (q x)) xs)%Z.
Proof.
  unfold Py.len. induction xs as [|x rest IH];
    cbn [Py.count_if List.length]; [reflexivity|].
  rewrite Nat2Z.inj_succ. destruct (p x), (q x); cbn [andb negb]; lia.
Qed.

(** X22. The trade count of the insider result is not the number of recent
    trades: a trade whose type holds both [P] and [S] is counted twice and
    one that holds neither is not counted, so the count is the number of
    recent trades plus the former minus the latter, between 0 and twice the
    number of recent trades. *)
Theorem insider_trade_count
    (now : Z) (strptime : string -> Py.outcome Z)
    (trades : list FMPCollector.Trade) (days : Z) :
  FMPCollector.recent_trades now strptime trades days <> [] ->
  exists r,
    FMPCollector.analyze_insider_sentiment now strptime trades days = Py.Ok r
    /\ FMPCollector.trade_count r
       = (Py.len (FMPCollector.recent_trades now strptime trades days)
          + Py.count_if
              (fun t =>
                 Py.contains "P"
                   (Py.get (FMPCollector.transactionType t) EmptyString)
                 && Py.contains "S"
                      (Py.get (FMPCollector.transactionType t) EmptyString))
              (FMPCollector.recent_trades now strptime trades days)
          - Py.count_if
              (fun t =>
                 negb (Py.contains "P"
                         (Py.get (FMPCollector.transactionType t) EmptyString))
                 && negb (Py.contains "S"
                            (Py.get (FMPCollector.transactionType t)
                               EmptyString)))
              (FMPCollector.recent_trades now strptime trades days))%Z
    /\ (0 <= FMPCollector.trade_count r
        <= 2 * Py.len (FMPCollector.recent_trades now strptime trades days))%Z.
Proof.
  intro Hne.
  set (recent := FMPCollector.recent_trades now strptime trades days) in *.
  assert (Htrades : trades <> []).
  { intro Hnil. apply Hne. subst recent. rewrite Hnil. reflexivity. }
  unfold FMPCollector.analyze_insider_sentiment.
  destruct trades as [|t rest]; [congruence|]. cbv beta iota.
  fold recent. rewrite (score_recent_trades_cases recent Hne). cbv zeta.
  eexists. split; [reflexivity|]. cbn [FMPCollector.trade_count].
  unfold FMPCollector.count_buys, FMPCollector.count_sells.
  set (isP := fun t0 : FMPCollector.Trade =>
                Py.contains "P"
                  (Py.get (FMPCollector.transactionType t0) EmptyString)).
  set (isS := fun t0 : FMPCollector.Trade =>
                Py.contains "S"
                  (Py.get (FMPCollector.transactionType t0) EmptyString)).
  pose proof (count_if_both_neither isP isS recent) as Hcount.
  split; [exact Hcount|].
  pose proof (count_if_nonneg isP recent).
  pose proof (count_if_nonneg isS recent).
  pose proof (count_if_filter isP recent) as HP.
  pose proof (count_if_filter isS recent) as HS.
  assert (HlenP : (Py.len (filter isP recent) <= Py.len recent)%Z).
  { unfold Py.len. apply Nat2Z.inj_le, filter_length_le. }
  assert (HlenS : (Py.len (filter isS recent) <= Py.len recent)%Z).
  { unfold Py.len. apply Nat2Z.inj_le, filter_length_le. }
  lia.
Qed.

Lemma insider_trade_count_witness :
  exists r,
    FMPCollector.analyze_insider_sentiment
      FMPCollector.sample_now FMPCollector.sample_strptime
      FMPCollector.sample_trades 90
    = Py.Ok r
    /\ FMPCollector.trade_count r = 3%Z.
Proof.
  destruct (insider_trade_count
              FMPCollector.sample_now FMPCollector.sample_strptime
              FMPCollector.sample_trades 90) as [r [Hr [Hcount _]]].
  - vm_compute. discriminate.
  - exists r. split; [exact Hr|]. rewrite Hcount. reflexivity.
Defined.

(** X23. The date filter drops every trade without a date or with a date
    that does not parse, keeps the order of the others, and is monotone in
    the window: a trade that is recent for some number of days is recent
    for every larger number. *)
Theorem recent_trades_window
    (now : Z) (strptime : string -> Py.outcome Z)
    (trades : list FMPCollector.Trade) (days1 days2 : Z) :
  (days1 <= days2)%Z ->
  incl (FMPCollector.recent_trades now strptime trades days1)
       (FMPCollector.recent_trades now strptime trades days2)
  /\ (forall t,
        In t (FMPCollector.recent_trades now strptime trades days1) ->
        In t trades
        /\ exists text date,
             FMPCollector.transactionDate t = Some text
             /\ strptime text = Py.Ok date
             /\ (now - days1 * FMPCollector.microseconds_per_day <= date)%Z).
Proof.
  intro Hdays. unfold FMPCollector.recent_trades.
  assert (Hchar : forall cutoff t,
             FMPCollector.is_recent strptime cutoff t = true
             <-> exists text date,
                   FMPCollector.transactionDate t = Some text
                   /\ strptime text = Py.Ok date /\ (cutoff <= date)%Z).
  { intros cutoff t. unfold FMPCollector.is_recent.
    destruct (FMPCollector.transactionDate t) as [text|].
    - destruct (strptime text) as [date|e] eqn:E.
      + rewrite Z.geb_le. split.
        * intro H. exists text, date. repeat split; assumption.
        * intros [text' [date' [H1 [H2 H3]]]]. injection H1 as <-.
          rewrite E in H2. injection H2 as <-. exact H3.
      + split; [discriminate|].
        intros [text' [date' [H1 [H2 _]]]]. injection H1 as <-.
        rewrite E in H2. discriminate H2.
    - split; [discriminate|]. intros [text [date [H _]]]. discriminate H. }
  split.
  - intros t Ht. apply filter_In in Ht as [Hin Hrecent].
    apply filter_In. split; [exact Hin|].
    apply Hchar in Hrecent as [text [date [H1 [H2 H3]]]].
    apply Hchar. exists text, date. repeat split; try assumption.
    unfold FMPCollector.microseconds_per_day in *. nia.
  - intros t Ht. apply filter_In in Ht as [Hin Hrecent].
    split; [exact Hin|]. apply Hchar. exact Hrecent.
Qed.

Lemma recent_trades_window_witness :
  incl (FMPCollector.recent_trades
          FMPCollector.sample_now FMPCollector.sample_strptime
          FMPCollector.sample_trades 7)
       (FMPCollector.recent_trades
          FMPCollector.sample_now FMPCollector.sample_strptime
          FMPCollector.sample_trades 90).
Proof.
  apply (recent_trades_window
           FMPCollector.sample_now FMPCollector.sample_strptime
           FMPCollector.sample_trades 7 90).
  lia.
Defined.

(** X24. The filing-based insider score measures activity only: for a
    non-empty list of filings whose first one carries its date, the label is
    "active" and the score is the number of filings over 20, capped at 1; it
    is positive, never negative, and reaches 1 from 20 filings on. *)
Theorem filing_activity_score (form4_filings : list SECEdgarCollector.Filing)
    (first : SECEdgarCollector.Filing) (rest : list SECEdgarCollector.Filing)
    (date : string) :
  form4_filings = first :: rest ->
  SECEdgarCollector.filing_date first = Some date ->
  exists r,
    SECEdgarCollector.analyze_insider_sentiment form4_filings = Py.Ok r
    /\ SECEdgarCollector.sentiment r = "active"%string
    /\ SECEdgarCollector.filing_count r = Py.len form4_filings
    /\ SECEdgarCollector.latest_date r = Some date
    /\ 0 < SECEdgarCollector.score r <= 1
    /\ ((Py.len form4_filings <= 20)%Z ->
        SECEdgarCollector.score r == inject_Z (Py.len form4_filings) / 20)
    /\ ((20 <= Py.len form4_filings)%Z -> SECEdgarCollector.score r == 1).
Proof.
  intros -> Hdate. unfold SECEdgarCollector.analyze_insider_sentiment.
  rewrite Hdate. cbn [Py.bind]. eexists. split; [reflexivity|].
  cbn [SECEdgarCollector.sentiment SECEdgarCollector.filing_count
       SECEdgarCollector.latest_date SECEdgarCollector.score].
  do 3 (split; [reflexivity|]).
  pose proof (len_cons_pos first rest) as Hlen.
  set (n := Py.len (first :: rest)) in *.
  assert (Hq : 0 < inject_Z n) by (rewrite <- (Zlt_Qlt 0); exact Hlen).
  assert (Hdiv : Py.of_int n / 20.0 == inject_Z n * (1 # 20))
    by (unfold Py.of_int; field).
  assert (Hdiv' : inject_Z n / 20 == inject_Z n * (1 # 20)) by field.
  assert (Hcmp : (n <= 20)%Z <-> inject_Z n <= 20).
  { rewrite (Zle_Qle n 20). reflexivity. }
  assert (Hcmp' : (20 <= n)%Z <-> 20 <= inject_Z n).
  { rewrite (Zle_Qle 20 n). reflexivity. }
  unfold SECEdgarCollector.min.
  destruct (Py.lt 1.0 (Py.of_int n / 20.0)) eqn:E.
  - apply lt_iff in E. rewrite Hdiv in E.
    split; [split; lra|]. split.
    + intro H. apply Hcmp in H. exfalso. lra.
    + intros _. reflexivity.
  - apply lt_false_iff in E. rewrite Hdiv in E. rewrite Hdiv, Hdiv'.
    split; [split; lra|]. split.
    + intros _. reflexivity.
    + intro H. apply Hcmp' in H. lra.
Qed.

Lemma filing_activity_score_witness :
  exists r,
    SECEdgarCollector.analyze_insider_sentiment
      SECEdgarCollector.sample_filings = Py.Ok r
    /\ SECEdgarCollector.sentiment r = "active"%string
    /\ SECEdgarCollector.score r == 3 # 20.
Proof.
  destruct (filing_activity_score SECEdgarCollector.sample_filings
              {| SECEdgarCollector.filing_date := Some "2024-03-01"%string |}
              [{| SECEdgarCollector.filing_date := Some "2024-02-12"%string |};
               {| SECEdgarCollector.filing_date := None |}]
              "2024-03-01")
    as [r [Hr [Hs [_ [_ [_ [Hscore _]]]]]]].
  - reflexivity.
  - reflexivity.
  - exists r. split; [exact Hr|]. split; [exact Hs|].
    rewrite Hscore by (vm_compute; discriminate). reflexivity.
Defined.
